(** * Complaint-escalation predictor: training notebook and scoring endpoint

    A shallow embedding of [src/Code.ipynb]: Part 1 (the training notebook),
    Part 2 (the Flask scoring endpoint [app.py]) and the prediction form of
    Part 3 (the dashboard).

    Conventions of the embedding.
    - A Python [float]/[int] is a rational [Q]; [NaN] is a separate cell
      constructor where a table can hold it, and [Fnan] a separate entry of
      the float64 row the model is given.
    - A Python [str] is a Rocq [string] (its UTF-8 bytes).
    - Code that can raise returns a [result]; [try/except] is a [match] on it.
    - Third-party code (NLTK, TextBlob, gensim, scikit-learn, imbalanced-learn,
      LightGBM, Optuna, SHAP, NumPy) is not part of the repository: what the
      programs call from it is a method of one of the classes [TextEnv],
      [MLEnv], [NumPyEnv] and [UiEnv]; the parts whose behaviour the theorems
      depend on (LabelEncoder, median, fillna, StandardScaler.transform,
      np.mean, np.zeros, np.array and np.concatenate on scalars, the
      conversion of a row to float64) are written out. *)

From Stdlib Require Import QArith.
From Stdlib Require Import Ascii String.
From stdpp Require Import gmap strings list fin_maps pretty sorting.

Set Warnings "-register-all".
Local Open Scope Q_scope.
Local Open Scope string_scope.
Local Open Scope list_scope.

(* ===================================================================== *)
(** ** Python values and exceptions *)
(* ===================================================================== *)

(** The values a decoded JSON body can hold. *)
Inductive PyVal : Type :=
  | PyNone
  | PyBool (b : bool)
  | PyNum (q : Q)
  | PyStr (s : string)
  | PyList (l : list PyVal)
  | PyDict (d : gmap string PyVal).

Inductive PyExc : Type :=
  | AttributeError
  | TypeError
  | ValueError
  | KeyError
  | RuntimeError
  | FileNotFoundError
  | PreconditionError.

Inductive result (A : Type) : Type :=
  | Ok (a : A)
  | Raise (e : PyExc).
Arguments Ok {A} a.
Arguments Raise {A} e.

#[global] Instance result_ret : MRet result := fun _ a => Ok a.
#[global] Instance result_bind : MBind result := fun _ _ f m =>
  match m with Ok a => f a | Raise e => Raise e end.
#[global] Instance result_fmap : FMap result := fun _ _ f m =>
  match m with Ok a => Ok (f a) | Raise e => Raise e end.

Definition is_ok {A} (r : result A) : bool :=
  match r with Ok _ => true | Raise _ => false end.

Definition result_map {A B} (f : A -> B) (r : result A) : result B :=
  match r with Ok a => Ok (f a) | Raise e => Raise e end.

(** [try: body except Exception: handler] *)
Definition try_except {A} (body : result A) (handler : PyExc -> A) : A :=
  match body with Ok a => a | Raise e => handler e end.

(** [d.get(k, dflt)] *)
Definition dict_get (d : gmap string PyVal) (k : string) (dflt : PyVal) : PyVal :=
  default dflt (d !! k).

(** Attribute lookup of [.get] on the decoded body: only a dict has it. *)
Definition as_dict (v : PyVal) : result (gmap string PyVal) :=
  match v with PyDict d => Ok d | _ => Raise AttributeError end.

(** Attribute lookup of [.lower] on the description: only a str has it. *)
Definition as_str (v : PyVal) : result string :=
  match v with PyStr s => Ok s | _ => Raise AttributeError end.

(* ===================================================================== *)
(** ** NumPy *)
(* ===================================================================== *)

(** [np.zeros(n)] *)
Definition np_zeros (n : nat) : list Q := replicate n 0.

Definition vec_add (u v : list Q) : list Q := zip_with Qplus u v.

(** [np.mean(vectors, axis=0)] on a non-empty list of equally wide rows:
    the rows are added up elementwise and the sum is divided by their number. *)
Definition np_mean_axis0 (vectors : list (list Q)) : list Q :=
  match vectors with
  | [] => []
  | v :: vs =>
      let n := inject_Z (Z.of_nat (length vectors)) in
      (fun s => s / n) <$> foldl vec_add v vs
  end.

(** A JSON number; a boolean counts as 1 or 0. *)
Definition as_number (v : PyVal) : option Q :=
  match v with
  | PyNum q => Some q
  | PyBool b => Some (if b then 1 else 0)
  | _ => None
  end.

Fixpoint numbers_of (items : list PyVal) : option (list Q) :=
  match items with
  | [] => Some []
  | x :: rest =>
      match as_number x, numbers_of rest with
      | Some q, Some qs => Some (q :: qs)
      | _, _ => None
      end
  end.

(* ===================================================================== *)
(** ** Text processing: what both programs take from their libraries *)
(* ===================================================================== *)

(** What the two programs use from Python's Unicode-aware [str] methods and
    [re], from NLTK and from TextBlob.  All are total on [str]. *)
Class TextEnv := {
  (** [text.lower()] *)
  str_lower : string -> string;
  (** [re.sub] of the pattern [\d+] by the empty string *)
  re_sub_digits : string -> string;
  (** [text.split()] *)
  str_split : string -> list string;
  (** [lemmatizer.lemmatize(word)] *)
  lemmatize : string -> string;
  (** [word in stop_words] *)
  in_stop_words : string -> bool;
  (** [TextBlob(text).sentiment.polarity] *)
  polarity : string -> Q;
  (** [str(x)] of a float, as [astype(str)] applies it *)
  float_str : Q -> string
}.

(** [string.punctuation] *)
Definition punctuation : string :=
  String "!" (String (ascii_of_nat 34) "#$%&'()*+,-./:;<=>?@[\]^_`{|}~").

Fixpoint string_mem (c : ascii) (s : string) : bool :=
  match s with
  | EmptyString => false
  | String d s' => if Ascii.eqb c d then true else string_mem c s'
  end.

(** The characters of the class [[{string.punctuation}]]: inside the
    brackets the run [,-.] is a range that spans exactly these three
    characters, and the backslash of [string.punctuation] escapes the
    closing bracket that follows it: that bracket is in the class, the
    backslash is not.  The class is the punctuation without the backslash. *)
Definition in_punctuation_class (c : ascii) : bool :=
  (string_mem c punctuation && negb (Ascii.eqb c "\"%char))%bool.

(** [re.sub] of that class by the empty string. *)
Fixpoint re_sub_punctuation (text : string) : string :=
  match text with
  | EmptyString => EmptyString
  | String c rest =>
      if in_punctuation_class c then re_sub_punctuation rest
      else String c (re_sub_punctuation rest)
  end.

(** [" ".join(words)] *)
Fixpoint str_join (words : list string) : string :=
  match words with
  | [] => EmptyString
  | [w] => w
  | w :: ws => String.append w (String.append " " (str_join ws))
  end.

(** [TextBlob(text).sentiment.polarity]; the constructor rejects a
    non-string with TypeError. *)
Definition textblob_polarity `{TextEnv} (text : PyVal) : result Q :=
  match text with PyStr s => Ok (polarity s) | _ => Raise TypeError end.

(* ===================================================================== *)
(** ** pandas: a data frame as an ordered list of named columns *)
(* ===================================================================== *)

Inductive Cell : Type :=
  | NaN
  | Num (q : Q)
  | Str (s : string)
  | Vec (v : list Q).

Abbreviation Column := (list Cell).
Abbreviation DataFrame := (list (string * list Cell)).

Definition df_columns (df : DataFrame) : list string := fst <$> df.

(** [df[name]] *)
Fixpoint df_get (df : DataFrame) (name : string) : result Column :=
  match df with
  | [] => Raise KeyError
  | (n, c) :: df' => if String.eqb n name then Ok c else df_get df' name
  end.

(** [df[name] = column]: an existing column is replaced where it stands, a
    new one is appended. *)
Fixpoint df_set (df : DataFrame) (name : string) (column : Column) : DataFrame :=
  match df with
  | [] => [(name, column)]
  | (n, c) :: df' =>
      if String.eqb n name then (n, column) :: df'
      else (n, c) :: df_set df' name column
  end.

Definition has_column (df : DataFrame) (name : string) : bool :=
  existsb (String.eqb name) (df_columns df).

(** [df.drop(columns=names)]: a name that is no column raises KeyError. *)
Definition df_drop (df : DataFrame) (names : list string) : result DataFrame :=
  if forallb (has_column df) names
  then Ok (filter (fun nc => existsb (String.eqb nc.1) names = false) df)
  else Raise KeyError.

(** [pd.concat(frames, axis=1)] of frames over the same default index. *)
Definition pd_concat (frames : list DataFrame) : DataFrame := concat frames.

(** [pd.DataFrame(rows, columns=names)]: every row must have one entry per
    name, else ValueError. *)
Definition frame_of_rows (names : list string) (rows : list (list Q))
  : result DataFrame :=
  if forallb (fun r => Nat.eqb (length r) (length names)) rows
  then Ok (imap (fun i n => (n, (fun r => Num (nth i r 0)) <$> rows)) names)
  else Raise ValueError.

(** A column pandas gives a numeric dtype: no string and no object in it. *)
Definition is_numeric (c : Column) : bool :=
  forallb (fun x => match x with NaN | Num _ => true | _ => false end) c.

Definition numbers (c : Column) : list Q :=
  omap (fun x => match x with Num q => Some q | _ => None end) c.

Fixpoint insert_sorted (x : Q) (l : list Q) : list Q :=
  match l with
  | [] => [x]
  | y :: l' => if Qle_bool x y then x :: l else y :: insert_sorted x l'
  end.

Definition sort_Q (l : list Q) : list Q := foldr insert_sorted [] l.

(** [Series.median()]: missing values are skipped; the middle of the sorted
    values, the mean of the two middle ones when their number is even, NaN
    when there is none. *)
Definition median (c : Column) : Cell :=
  let s := sort_Q (numbers c) in
  let n := length s in
  match n with
  | O => NaN
  | _ =>
      if Nat.even n
      then Num ((nth (Nat.div n 2 - 1)%nat s 0 + nth (Nat.div n 2) s 0) / 2)
      else Num (nth (Nat.div n 2) s 0)
  end.

(** [Series.fillna(value)] *)
Definition fill_column (value : Cell) (c : Column) : Column :=
  (fun x => match x with NaN => value | _ => x end) <$> c.

(** [df.fillna(df.median(), inplace=True)].  The frame always holds the text
    column, so [df.median()] only returns where pandas drops the columns that
    have no median (pandas before 2.0; later versions raise TypeError on the
    text column and the notebook stops there): the medians are those of the
    numeric columns, and only these columns are filled. *)
Definition fillna_median (df : DataFrame) : DataFrame :=
  (fun nc => if is_numeric nc.2 then (nc.1, fill_column (median nc.2) nc.2) else nc)
    <$> df.

(** [Series.astype(str)] *)
Definition astype_str `{TextEnv} (c : Column) : list string :=
  (fun x => match x with
            | NaN => "nan"
            | Num q => float_str q
            | Str s => s
            | Vec _ => "[...]"
            end) <$> c.

(** The float matrix scikit-learn and imbalanced-learn make of a frame:
    a missing or a non-numeric cell is refused with ValueError. *)
Definition cell_float (x : Cell) : result Q :=
  match x with Num q => Ok q | _ => Raise ValueError end.

Fixpoint mapM {A B} (f : A -> result B) (l : list A) : result (list B) :=
  match l with
  | [] => Ok []
  | a :: l' => b ← f a; bs ← mapM f l'; Ok (b :: bs)
  end.

Definition nrows (df : DataFrame) : nat :=
  match df with [] => 0%nat | (_, c) :: _ => length c end.

Definition df_row (df : DataFrame) (i : nat) : list Cell :=
  (fun nc => nth i nc.2 NaN) <$> df.

Definition to_matrix (df : DataFrame) : result (list (list Q)) :=
  mapM (fun i => mapM cell_float (df_row df i)) (seq 0 (nrows df)).

(* ===================================================================== *)
(** ** scikit-learn: LabelEncoder and StandardScaler *)
(* ===================================================================== *)

Inductive CellKind := KNone | KNum | KStr | KMixed.

Definition kind_join (k : CellKind) (x : Cell) : CellKind :=
  match x, k with
  | NaN, _ => k
  | Num _, (KNone | KNum) => KNum
  | Str _, (KNone | KStr) => KStr
  | _, _ => KMixed
  end.

Definition cell_compare (x y : Cell) : comparison :=
  match x, y with
  | Num a, Num b => Qcompare a b
  | Str a, Str b => String.compare a b
  | _, _ => Eq
  end.

Fixpoint insert_unique (x : Cell) (l : list Cell) : list Cell :=
  match l with
  | [] => [x]
  | y :: l' =>
      match cell_compare x y with
      | Lt => x :: l
      | Eq => l
      | Gt => y :: insert_unique x l'
      end
  end.

Definition is_nan (x : Cell) : bool :=
  match x with NaN => true | _ => false end.


(** [np.unique] as the encoder uses it: the distinct values in increasing
    order, a missing value last; strings mixed with numbers cannot be
    ordered (TypeError). *)
Definition unique (y : Column) : result (list Cell) :=
  match foldl kind_join KNone y with
  | KMixed => Raise TypeError
  | _ =>
      Ok (foldr insert_unique [] (filter (fun x => is_nan x = false) y)
          ++ (if existsb is_nan y then [NaN] else []))
  end.

Definition cell_eqb (x y : Cell) : bool :=
  match x, y with
  | NaN, NaN => true
  | Num a, Num b => Qeq_bool a b
  | Str a, Str b => String.eqb a b
  | _, _ => false
  end.

Fixpoint index_of (x : Cell) (classes : list Cell) : option nat :=
  match classes with
  | [] => None
  | c :: cs => if cell_eqb x c then Some 0%nat else S <$> index_of x cs
  end.

Record LabelEncoder := { classes_ : list Cell }.

(** [le.transform([x])]: the position of the value among the classes; a value
    that is no class raises ValueError. *)
Definition le_transform (le : LabelEncoder) (x : Cell) : result nat :=
  match index_of x (classes_ le) with
  | Some i => Ok i
  | None => Raise ValueError
  end.

Definition code_cell (i : nat) : Cell := Num (inject_Z (Z.of_nat i)).

(** [le.fit_transform(column)] *)
Definition le_fit_transform (y : Column) : result (LabelEncoder * Column) :=
  classes ← unique y;
  let le := {| classes_ := classes |} in
  codes ← mapM (le_transform le) y;
  Ok (le, map code_cell codes).

Record StandardScaler := { mean_ : list Q; scale_ : list Q }.

(** [scaler.transform(row)]: [(x - mean) / scale], column by column. *)
Definition scaler_transform (sc : StandardScaler) (row : list Q) : list Q :=
  zip_with (fun x ms => (x - ms.1) / ms.2) row (zip (mean_ sc) (scale_ sc)).

(* ===================================================================== *)
(** ** The stacking ensemble *)
(* ===================================================================== *)

(** The ensemble the notebook fits and the endpoint calls is scikit-learn's
    [StackingClassifier]; its code is not in the repository.  Its model
    below follows section 4.9 of the specification. *)
Module Stacking.

(** Modelled from the spec: a fitted learner of the absent scikit-learn
    class, which maps a feature row to a label (section 4.9, "run every base
    learner's full-data-trained version on the input"). *)
Definition Predictor : Type := list Q -> Z.

(** Modelled from the spec: an unfitted learner of the absent class;
    fitting it on a matrix and its labels gives a predictor (section 4.9,
    "train every base learner"). *)
Definition Learner : Type := list (list Q) -> list Q -> Predictor.

(** Modelled from the spec: the fitted state of the ensemble, which is
    scikit-learn's and absent from the repository; it holds the base
    learners trained on the full training set, each under the identifier
    it had when [fit] started, and the fitted meta-learner. *)
Record FittedState := {
  fitted_bases : list (string * Predictor);
  fitted_meta : Predictor
}.

(** Modelled from the spec: the states [untrained -> fitting -> fitted] of
    the state machine of section 4.9 (scikit-learn's class is absent from
    the repository). *)
Inductive State : Type :=
  | Untrained
  | Fitting
  | Fitted (f : FittedState).

(** Modelled from the spec: the composition of section 4.9, N named base
    learners, one meta-learner and the fold count, as the notebook passes
    them to the constructor of the absent class. *)
Record Ensemble := {
  estimators : list (string * Learner);
  final_estimator : Learner;
  cv : nat;
  state : State
}.

(** Modelled from the spec: the constructor of the absent class; a new
    ensemble is in the state [untrained] of section 4.9. *)
Definition StackingClassifier (estimators : list (string * Learner))
    (final_estimator : Learner) (cv : nat) : Ensemble :=
  {| estimators := estimators; final_estimator := final_estimator;
     cv := cv; state := Untrained |}.

(** Modelled from the spec: a transition of the state machine of section
    4.9 of the absent class; the composition is kept. *)
Definition set_state (e : Ensemble) (s : State) : Ensemble :=
  {| estimators := estimators e; final_estimator := final_estimator e;
     cv := cv e; state := s |}.

(** Modelled from the spec: assigning to the list of estimators of the
    absent class after construction; section 4.9 keeps the list captured at
    fit time apart from it. *)
Definition set_estimators (e : Ensemble) (l : list (string * Learner)) : Ensemble :=
  {| estimators := l; final_estimator := final_estimator e;
     cv := cv e; state := state e |}.

(** Modelled from the spec: the k-1 training folds of section 4.9 for the
    absent class: the rows, or labels, outside fold [f] of [k], sample [i]
    lying in fold [i mod k]. *)
Definition training_folds {A} (k f : nat) (l : list A) : list A :=
  map snd (filter (fun ia : nat * A => negb (Nat.eqb (ia.1 mod k) f) = true)
                  (imap (fun i a => (i, a)) l)).

(** Modelled from the spec: the out-of-fold predictions of section 4.9
    (the absent class computes them inside [fit]): for each sample, every
    base learner is trained on the k-1 folds the sample is not in and
    predicts the sample. *)
Definition out_of_fold (e : Ensemble) (X : list (list Q)) (y : list Q)
  : list (list Q) :=
  imap (fun i x =>
          map (fun nl : string * Learner =>
                 inject_Z (nl.2 (training_folds (cv e) (i mod cv e) X)
                                (training_folds (cv e) (i mod cv e) y) x))
              (estimators e))
       X.

(** Modelled from the spec: the first step of the fit protocol of section
    4.9 for the absent class, entering the state [fitting]. *)
Definition begin_fit (e : Ensemble) : Ensemble := set_state e Fitting.

(** Modelled from the spec: the second step of the fit protocol of section
    4.9 for the absent class: the cross-validated predictions, the refit of
    every base learner on the full training set under the identifier it has
    now, and the meta-learner trained on the out-of-fold matrix; the state
    becomes [fitted]. *)
Definition finish_fit (e : Ensemble) (X : list (list Q)) (y : list Q) : Ensemble :=
  set_state e
    (Fitted {| fitted_bases :=
                 map (fun nl : string * Learner => (nl.1, nl.2 X y)) (estimators e);
               fitted_meta := final_estimator e (out_of_fold e X y) y |}).

(** Modelled from the spec: [fit] of the absent class, the two steps of
    section 4.9 one after the other. *)
Definition fit (e : Ensemble) (X : list (list Q)) (y : list Q) : Ensemble :=
  finish_fit (begin_fit e) X y.

(** Modelled from the spec: the first half of the predict protocol of
    section 4.9 for the absent class: in the fitted state every
    full-data-trained base learner is run on the input, in the order
    captured at fit time; in any other state PreconditionError (section 7). *)
Definition base_predictions (e : Ensemble) (x : list Q)
  : result (list (string * Z)) :=
  match state e with
  | Fitted f => Ok (map (fun np : string * Predictor => (np.1, np.2 x)) (fitted_bases f))
  | _ => Raise PreconditionError
  end.

(** Modelled from the spec: the second half of the predict protocol of
    section 4.9 for the absent class: the row of base predictions is fed
    to the meta-learner, whose output is returned. *)
Definition predict (e : Ensemble) (x : list Q) : result Z :=
  match state e with
  | Fitted f =>
      row ← base_predictions e x;
      Ok (fitted_meta f (map (fun ip : string * Z => inject_Z ip.2) row))
  | _ => Raise PreconditionError
  end.

(** Modelled from the spec: the identifiers of the base learners of the
    absent class in the order its predict protocol (section 4.9) runs them. *)
Definition predict_ids (e : Ensemble) (x : list Q) : result (list string) :=
  row ← base_predictions e x; Ok (map fst row).

End Stacking.

(* ===================================================================== *)
(** ** What the notebook takes from its machine-learning libraries *)
(* ===================================================================== *)

(** The LightGBM parameters the search proposes. *)
Record Params := {
  num_leaves : Z;
  max_depth : Z;
  learning_rate : Q;
  n_estimators : Z;
  reg_lambda : Q;
  reg_alpha : Q
}.

(** A fitted [TfidfVectorizer]: [transform] maps a cleaned text to its row. *)
Record TfidfVectorizer := { tfidf_transform : string -> list Q }.

Class MLEnv := {
  (** [Word2Vec(sentences, vector_size=100, window=5, min_count=2).wv];
      gensim raises RuntimeError when no token occurs twice, the vocabulary
      being empty. *)
  word2vec_fit : list (list string) -> result (gmap string (list Q));
  (** [TfidfVectorizer(max_features=500).fit_transform(texts)] *)
  tfidf_fit_transform : list string -> result (TfidfVectorizer * list (list Q));
  (** [SMOTE(sampling_strategy=0.5, random_state=42).fit_resample(X, y)] *)
  smote_fit_resample :
    list (list Q) -> list Q -> result (list (list Q) * list Q);
  (** [StandardScaler().fit(X)] *)
  scaler_fit : list (list Q) -> StandardScaler;
  (** The row numbers [train_test_split(..., test_size=0.2, random_state=42,
      stratify=y)] puts in the training and in the test part. *)
  train_test_split : nat -> list Q -> result (list nat * list nat);
  (** The parameters an Optuna trial suggests after the trials so far. *)
  suggest : list (Params * Q) -> Params;
  (** [lgb.LGBMClassifier] built from a dictionary of parameters *)
  lgbm : Params -> Stacking.Learner;
  (** [lgb.LGBMClassifier(n_estimators=100)] *)
  lgbm_100 : Stacking.Learner;
  (** [xgb.XGBClassifier(use_label_encoder=False, eval_metric="logloss")] *)
  xgb_classifier : Stacking.Learner;
  (** [cb.CatBoostClassifier(verbose=0)] *)
  cat_classifier : Stacking.Learner;
  (** [f1_score(y_true, y_pred)] and [roc_auc_score(y_true, y_pred)] *)
  f1_score : list Q -> list Z -> Q;
  roc_auc_score : list Q -> list Z -> Q;
  (** [confusion_matrix(y_true, y_pred)] *)
  confusion_matrix : list Q -> list Z -> list (list nat);
  (** [shap.summary_plot(shap.Explainer(model, X_train)(X_test), X_test)]:
      the explainer raises TypeError for a model it has no algorithm for. *)
  shap_summary : Stacking.Ensemble -> list (list Q) -> list (list Q) -> result unit
}.

(** What [joblib.dump] writes and [joblib.load] reads back. *)
Inductive Pickle : Type :=
  | PkEnsemble (e : Stacking.Ensemble)
  | PkScaler (s : StandardScaler)
  | PkWord2Vec (wv : gmap string (list Q))
  | PkTfidf (t : TfidfVectorizer)
  | PkEncoders (les : gmap string LabelEncoder).

(** The named files of the working directory. *)
Abbreviation Files := (gmap string Pickle).

(** [joblib.load(name)] *)
Definition joblib_load (fs : Files) (name : string) : result Pickle :=
  match fs !! name with
  | Some p => Ok p
  | None => Raise FileNotFoundError
  end.

(** [joblib.dump(obj, name)] *)
Definition joblib_dump (fs : Files) (obj : Pickle) (name : string) : Files :=
  <[name := obj]> fs.

(** The rows of a matrix, or the labels, at the given row numbers. *)
Definition take_rows {A} (idx : list nat) (l : list A) : list A :=
  omap (fun i => l !! i) idx.

(* ===================================================================== *)
(** ** The predictions table the notebook saves *)
(* ===================================================================== *)

(** The rows of the frame with the columns [Complaint_ID], which is
    [np.arange(len(y_pred))], and [Predicted_Escalated], which is [y_pred]. *)
Definition predictions_df (y_pred : list Z) : list (nat * Z) :=
  zip (seq 0 (length y_pred)) y_pred.

(* ===================================================================== *)
(** ** NumPy arrays, and what scikit-learn's input validation makes of them *)
(* ===================================================================== *)

(** A float64 entry: a number, or one of [nan], [inf] and [-inf]. *)
Inductive Float64 : Type :=
  | Finite (q : Q)
  | Fnan
  | Finf (negative : bool).

(** A one-dimensional array, by its dtype: float64 with numbers only;
    float64 with an entry that is no number; str, where a cell holds the
    text of the item it was made from; object, where a cell holds the item
    itself. *)
Inductive NdArray : Type :=
  | FloatArray (v : list Q)
  | NanArray (v : list Float64)
  | StrArray (cells : list PyVal)
  | ObjectArray (cells : list PyVal).

Definition array_length (a : NdArray) : nat :=
  match a with
  | FloatArray v => length v
  | NanArray v => length v
  | StrArray cells | ObjectArray cells => length cells
  end.

Definition is_sequence (x : PyVal) : bool :=
  match x with PyList _ => true | _ => false end.

Definition is_str_or_number (x : PyVal) : bool :=
  match x with PyBool _ | PyNum _ | PyStr _ => true | _ => false end.

Definition is_object_array (a : NdArray) : bool :=
  match a with ObjectArray _ => true | _ => false end.

Fixpoint floats_of (arrays : list NdArray) : option (list (list Q)) :=
  match arrays with
  | [] => Some []
  | FloatArray v :: rest =>
      match floats_of rest with Some vs => Some (v :: vs) | None => None end
  | _ :: _ => None
  end.

(** The entries of an array of dtype float64. *)
Definition array_float64 (a : NdArray) : option (list Float64) :=
  match a with
  | FloatArray v => Some (Finite <$> v)
  | NanArray v => Some v
  | _ => None
  end.

(** The cells an array gives to an array of dtype str or object it is
    joined into: a number of a float64 array becomes a Python float (and
    its text under dtype str).  An entry that is no number has no JSON
    value. *)
Definition array_cells (a : NdArray) : option (list PyVal) :=
  match a with
  | FloatArray v => Some (PyNum <$> v)
  | NanArray _ => None
  | StrArray cells | ObjectArray cells => Some cells
  end.

Fixpoint all_some {A} (l : list (option A)) : option (list A) :=
  match l with
  | [] => Some []
  | Some a :: rest =>
      match all_some rest with Some r => Some (a :: r) | None => None end
  | None :: _ => None
  end.

(** What the endpoint depends on in the installed NumPy, scikit-learn and
    learners, where versions differ or the repository does not decide. *)
Class NumPyEnv := {
  (** The exception [np.array(items)] raises when an item is a list, so
      that the items are ragged: ValueError from NumPy 1.24 on; none before,
      where the result is an object array. *)
  np_array_ragged : list PyVal -> option PyExc;
  (** [np.concatenate(arrays)] when a float64 array with an entry that is no
      number meets an array of dtype str or object *)
  np_concatenate_mixed : list NdArray -> result (list PyVal);
  (** [float(s)]: the float a text reads as, where it reads as one *)
  float_of_str : string -> option Float64;
  (** Whether the input validation of scikit-learn converts an array of
      dtype str to numbers (old versions) or refuses it with ValueError. *)
  reads_str_arrays : bool;
  (** [model.predict] of the ensemble on a row with an entry that is no
      number: what the fitted learners make of it is theirs. *)
  predict_non_finite : Stacking.Ensemble -> list Float64 -> result Z
}.

(** [np.array(items)] on a Python list that holds a scalar, as the list
    [predict] builds does (its first item is a float).  Numbers and booleans
    give a float64 array; numbers, booleans and strings with at least one
    string give an array of dtype str; with None or a dict among the items
    the array has dtype object; a list among the items makes them ragged. *)
Definition np_array `{NumPyEnv} (items : list PyVal) : result NdArray :=
  match numbers_of items with
  | Some v => Ok (FloatArray v)
  | None =>
      if existsb is_sequence items then
        match np_array_ragged items with
        | Some e => Raise e
        | None => Ok (ObjectArray items)
        end
      else if forallb is_str_or_number items then Ok (StrArray items)
      else Ok (ObjectArray items)
  end.

(** [np.concatenate(arrays)] of one-dimensional arrays: the entries of the
    arrays one after the other, under the common dtype, which is object when
    an array has it, else str when an array has it, else float64. *)
Definition np_concatenate `{NumPyEnv} (arrays : list NdArray) : result NdArray :=
  match floats_of arrays with
  | Some vs => Ok (FloatArray (concat vs))
  | None =>
      match all_some (array_float64 <$> arrays) with
      | Some vs => Ok (NanArray (concat vs))
      | None =>
          match all_some (array_cells <$> arrays) with
          | Some cs =>
              if existsb is_object_array arrays then Ok (ObjectArray (concat cs))
              else Ok (StrArray (concat cs))
          | None => cells ← np_concatenate_mixed arrays; Ok (ObjectArray cells)
          end
      end
  end.

(* ===================================================================== *)
(** ** Part 1: the training notebook *)
(* ===================================================================== *)

Module Training.
Section Notebook.
Context `{TextEnv} `{MLEnv}.

(** *** Cell 1: load and preprocess *)

(** The loop over the two categorical columns. *)
Definition encode_categoricals (df : DataFrame)
  : result (gmap string LabelEncoder * DataFrame) :=
  foldl (fun acc col =>
           '(label_encoders, df) ← acc;
           column ← df_get df col;
           '(le, codes) ← le_fit_transform column;
           Ok (<[col := le]> label_encoders, df_set df col codes))
        (Ok (∅, df))
        ["complaint_type"; "transaction_frequency"].

Definition load_and_preprocess (csv : DataFrame)
  : result (gmap string LabelEncoder * DataFrame) :=
  '(label_encoders, df) ← encode_categoricals csv;
  Ok (label_encoders, fillna_median df).

(** *** Cell 1.1: text cleaning and sentiment *)

Definition clean_text (text : PyVal) : string :=
  try_except
    (text ← as_str text;
     let text := str_lower text in
     let text := re_sub_punctuation text in
     let text := re_sub_digits text in
     let words := str_split text in
     let words :=
       map lemmatize (filter (fun word => in_stop_words word = false) words) in
     Ok (str_join words))
    (fun e => EmptyString).

Definition text_preprocess (df : DataFrame) : result DataFrame :=
  description ← df_get df "complaint_description";
  let df :=
    df_set df "cleaned_text"
           (map (fun x => Str (clean_text (PyStr x))) (astype_str description)) in
  description ← df_get df "complaint_description";
  Ok (df_set df "sentiment_score"
             (map (fun x => Num (polarity x)) (astype_str description))).

(** *** Cell 1.2: Word2Vec and TF-IDF features *)

Definition get_w2v_vector (w2v_model : gmap string (list Q)) (text : string)
  : list Q :=
  let words := str_split text in
  let vectors := omap (fun word => w2v_model !! word) words in
  match vectors with
  | [] => np_zeros 100
  | _ => np_mean_axis0 vectors
  end.

Definition numbered (prefix : string) (n : nat) : list string :=
  map (fun i : nat => String.append prefix (pretty i)) (seq 0 n).

Definition cell_text (x : Cell) : string :=
  match x with Str s => s | _ => EmptyString end.

Definition cell_vector (x : Cell) : list Q :=
  match x with Vec v => v | _ => [] end.

Record TextFeatures := {
  tf_w2v_model : gmap string (list Q);
  tf_tfidf : TfidfVectorizer;
  tf_df : DataFrame
}.

Definition text_features (df : DataFrame) : result TextFeatures :=
  cleaned ← df_get df "cleaned_text";
  let tokenized_texts := map (fun text => str_split (cell_text text)) cleaned in
  w2v_model ← word2vec_fit tokenized_texts;
  let df :=
    df_set df "w2v_features"
           (map (fun text => Vec (get_w2v_vector w2v_model (cell_text text))) cleaned) in
  w2v_features ← df_get df "w2v_features";
  w2v_df ← frame_of_rows (numbered "w2v_" 100) (map cell_vector w2v_features);
  cleaned ← df_get df "cleaned_text";
  '(tfidf, tfidf_matrix) ← tfidf_fit_transform (map cell_text cleaned);
  tfidf_df ← frame_of_rows (numbered "tfidf_" 500) tfidf_matrix;
  let df := pd_concat [df; w2v_df; tfidf_df] in
  df ← df_drop df ["complaint_description"; "cleaned_text"; "w2v_features"];
  Ok {| tf_w2v_model := w2v_model; tf_tfidf := tfidf; tf_df := df |}.

(** *** Cell 2: balancing, scaling, splitting *)

Record Split := {
  X_columns : list string;
  X : list (list Q);
  scaler : StandardScaler;
  X_scaled : list (list Q);
  y_smote : list Q;
  train_rows : list nat;
  test_rows : list nat;
  X_train : list (list Q);
  X_test : list (list Q);
  y_train : list Q;
  y_test : list Q
}.

Definition balance_scale_split (df : DataFrame) : result Split :=
  X ← df_drop df ["escalated"];
  y ← df_get df "escalated";
  Xm ← to_matrix X;
  ym ← mapM cell_float y;
  '(X_smote, y_smote) ← smote_fit_resample Xm ym;
  let scaler := scaler_fit X_smote in
  let X_scaled := map (scaler_transform scaler) X_smote in
  '(train_rows, test_rows) ← train_test_split (length X_scaled) y_smote;
  Ok {| X_columns := df_columns X; X := Xm; scaler := scaler;
        X_scaled := X_scaled; y_smote := y_smote;
        train_rows := train_rows; test_rows := test_rows;
        X_train := take_rows train_rows X_scaled;
        X_test := take_rows test_rows X_scaled;
        y_train := take_rows train_rows y_smote;
        y_test := take_rows test_rows y_smote |}.

(** *** Cell 3: the Optuna study *)

Definition objective (s : Split) (params : Params) : Q :=
  let model := lgbm params (X_train s) (y_train s) in
  let y_pred := map model (X_test s) in
  f1_score (y_test s) y_pred.

(** [study.optimize(objective, n_trials=n)]: one trial after the other,
    each proposed from the trials recorded so far. *)
Fixpoint optimize (objective : Params -> Q) (n_trials : nat)
    (trials : list (Params * Q)) : list (Params * Q) :=
  match n_trials with
  | O => trials
  | S n =>
      let params := suggest trials in
      optimize objective n (trials ++ [(params, objective params)])
  end.

(** [study.best_params]: the first trial with the highest value. *)
Fixpoint best_trial (trials : list (Params * Q)) : option (Params * Q) :=
  match trials with
  | [] => None
  | t :: rest =>
      match best_trial rest with
      | Some b => if Qle_bool t.2 b.2 && negb (Qeq_bool t.2 b.2) then Some b else Some t
      | None => Some t
      end
  end.

Definition tune (s : Split) : result (list (Params * Q) * Params) :=
  let trials := optimize (objective s) 30 [] in
  match best_trial trials with
  | Some b => Ok (trials, b.1)
  | None => Raise ValueError
  end.

(** *** Cells 4 to 6: stacking, evaluation, saving *)

Record Evaluation := {
  y_pred : list Z;
  f1 : Q;
  auc : Q;
  cm : list (list nat)
}.

Definition build_stack (s : Split) (best_params : Params) : Stacking.Ensemble :=
  let lgb_model := lgbm best_params in
  let xgb_model := xgb_classifier in
  let cat_model := cat_classifier in
  let stack_model :=
    Stacking.StackingClassifier
      [("lgbm", lgb_model); ("xgb", xgb_model); ("cat", cat_model)]
      lgbm_100 5 in
  Stacking.fit stack_model (X_train s) (y_train s).

Definition evaluate (s : Split) (stack_model : Stacking.Ensemble)
  : result Evaluation :=
  y_pred ← mapM (Stacking.predict stack_model) (X_test s);
  Ok {| y_pred := y_pred;
        f1 := f1_score (y_test s) y_pred;
        auc := roc_auc_score (y_test s) y_pred;
        cm := confusion_matrix (y_test s) y_pred |}.

(** What the run leaves behind: the notebook's globals, the joblib files
    of the working directory and the rows written to [predictions.csv]. *)
Record Run := {
  label_encoders : gmap string LabelEncoder;
  w2v_model : gmap string (list Q);
  tfidf : TfidfVectorizer;
  split : Split;
  trials : list (Params * Q);
  best_params : Params;
  stack_model : Stacking.Ensemble;
  evaluation : Evaluation;
  files : Files;
  predictions_csv : list (nat * Z)
}.

(** The notebook, top to bottom, on the table read from the CSV file and
    the files of the working directory. *)
Definition notebook (csv : DataFrame) (fs : Files) : result Run :=
  '(label_encoders, df) ← load_and_preprocess csv;
  df ← text_preprocess df;
  tf ← text_features df;
  s ← balance_scale_split (tf_df tf);
  '(trials, best_params) ← tune s;
  let stack_model := build_stack s best_params in
  ev ← evaluate s stack_model;
  _ ← shap_summary stack_model (X_train s) (X_test s);
  let fs := joblib_dump fs (PkEnsemble stack_model) "escalation_model.pkl" in
  let predictions_df := predictions_df (y_pred ev) in
  Ok {| label_encoders := label_encoders; w2v_model := tf_w2v_model tf;
        tfidf := tf_tfidf tf; split := s; trials := trials;
        best_params := best_params; stack_model := stack_model;
        evaluation := ev; files := fs; predictions_csv := predictions_df |}.

End Notebook.
End Training.

(* ===================================================================== *)
(** ** Part 2: the scoring endpoint *)
(* ===================================================================== *)

Module Serving.
Section App.
Context `{TextEnv} `{NumPyEnv}.

(** The module-level names of [app.py]. *)
Record Globals := {
  model : Pickle;
  scaler : option Pickle;
  w2v_model : option Pickle;
  tfidf : option Pickle
}.

(** The module-level statements that bind them, run once at start-up. *)
Definition load_globals (fs : Files) : result Globals :=
  model ← joblib_load fs "escalation_model.pkl";
  scaler ← (if false then Some <$> joblib_load fs "scaler.pkl" else Ok None);
  w2v_model ← (if false then Some <$> joblib_load fs "w2v_model.pkl" else Ok None);
  tfidf ← (if false then Some <$> joblib_load fs "tfidf_vectorizer.pkl" else Ok None);
  Ok {| model := model; scaler := scaler; w2v_model := w2v_model; tfidf := tfidf |}.

Definition clean_text (text : PyVal) : result string :=
  text ← as_str text;
  let text := str_lower text in
  let text := re_sub_punctuation text in
  let text := re_sub_digits text in
  let words := str_split text in
  let words :=
    map lemmatize (filter (fun word => in_stop_words word = false) words) in
  Ok (str_join words).

(** [w2v_model.wv] is looked up once per word: with no word the attribute
    is never touched. *)
Definition get_w2v_vector (text : string) (w2v_model : Pickle) : result (list Q) :=
  let words := str_split text in
  match w2v_model with
  | PkWord2Vec wv =>
      let vectors := omap (fun word => wv !! word) words in
      Ok (match vectors with
          | [] => np_zeros 100
          | _ => np_mean_axis0 vectors
          end)
  | _ =>
      match words with
      | [] => Ok (np_zeros 100)
      | _ => Raise AttributeError
      end
  end.

(** The conversion of a cell of an object array to float64 that the input
    validation performs: None becomes [nan], a text is read as a float, a
    list is refused with ValueError and a dict with TypeError. *)
Definition py_float (v : PyVal) : result Float64 :=
  match v with
  | PyNum q => Ok (Finite q)
  | PyBool b => Ok (Finite (if b then 1 else 0))
  | PyStr s =>
      match float_of_str s with Some f => Ok f | None => Raise ValueError end
  | PyNone => Ok Fnan
  | PyList _ => Raise ValueError
  | PyDict _ => Raise TypeError
  end.

(** The conversion of a cell of an array of dtype str, which holds the
    text of its item: the text of a number reads as that number. *)
Definition str_cell_float (v : PyVal) : result Float64 :=
  match v with
  | PyNum q => Ok (Finite q)
  | PyBool b =>
      match float_of_str (if b then "True" else "False") with
      | Some f => Ok f
      | None => Raise ValueError
      end
  | PyStr s =>
      match float_of_str s with Some f => Ok f | None => Raise ValueError end
  | _ => Raise ValueError
  end.

(** The float64 row the input validation makes of the array it is given. *)
Definition array_floats (a : NdArray) : result (list Float64) :=
  match a with
  | FloatArray v => Ok (Finite <$> v)
  | NanArray v => Ok v
  | StrArray cells =>
      if reads_str_arrays then mapM str_cell_float cells else Raise ValueError
  | ObjectArray cells => mapM py_float cells
  end.

(** The numbers of a row, when all its entries are numbers. *)
Definition finite_row (row : list Float64) : option (list Q) :=
  all_some ((fun f => match f with Finite q => Some q | _ => None end) <$> row).

Definition is_infinite (f : Float64) : bool :=
  match f with Finf _ => true | _ => false end.

(** [(x - mean) / scale] on an entry; [nan] stays [nan]. *)
Definition scale_entry (f : Float64) (ms : Q * Q) : Float64 :=
  match f with
  | Finite x => Finite ((x - ms.1) / ms.2)
  | _ => f
  end.

(** [scaler.transform(feature_vector)] on the one-row matrix: the
    validation lets [nan] through and refuses an infinity, and the row must
    have as many entries as the scaler has columns. *)
Definition scaler_apply (sc : Pickle) (feature_vector : NdArray) : result NdArray :=
  match sc with
  | PkScaler sc =>
      row ← array_floats feature_vector;
      if existsb is_infinite row then Raise ValueError
      else if Nat.eqb (length row) (length (mean_ sc))
      then Ok match finite_row row with
              | Some numbers => FloatArray (scaler_transform sc numbers)
              | None => NanArray (zip_with scale_entry row (zip (mean_ sc) (scale_ sc)))
              end
      else Raise ValueError
  | _ => Raise AttributeError
  end.

(** The body of [predict] from [request.get_json] down to the scaling:
    the feature vector handed to the model. *)
Definition feature_vector (g : Globals) (body : PyVal) : result NdArray :=
  data ← as_dict body;
  let complaint_text := dict_get data "complaint_description" (PyStr EmptyString) in
  cleaned ← clean_text complaint_text;
  sentiment ← textblob_polarity complaint_text;
  w2v_vec ← match w2v_model g with
             | Some m => get_w2v_vector cleaned m
             | None => Ok (np_zeros 100)
             end;
  tfidf_vec ← match tfidf g with
               | Some (PkTfidf t) => Ok (tfidf_transform t cleaned)
               | Some _ => Raise AttributeError
               | None => Ok (np_zeros 500)
               end;
  let complaint_type := dict_get data "complaint_type" (PyNum 0) in
  let transaction_frequency := dict_get data "transaction_frequency" (PyNum 0) in
  let numeric_features := [PyNum sentiment; complaint_type; transaction_frequency] in
  numeric_array ← np_array numeric_features;
  feature_vector ←
    np_concatenate [numeric_array; FloatArray w2v_vec; FloatArray tfidf_vec];
  match scaler g with
  | Some sc => scaler_apply sc feature_vector
  | None => Ok feature_vector
  end.

(** [model.predict(feature_vector)[0]] *)
Definition model_predict (m : Pickle) (feature_vector : NdArray) : result Z :=
  match m with
  | PkEnsemble e =>
      row ← array_floats feature_vector;
      match finite_row row with
      | Some numbers => Stacking.predict e numbers
      | None => predict_non_finite e row
      end
  | _ => Raise AttributeError
  end.

Inductive Response : Type :=
  | Escalated (label : Z)
  | Error (e : PyExc).

(** The route [/predict]: everything happens inside one [try], and any
    exception becomes an error response. *)
Definition predict (g : Globals) (body : PyVal) : Response :=
  try_except
    (feature_vector ← feature_vector g body;
     prediction ← model_predict (model g) feature_vector;
     Ok (Escalated prediction))
    Error.

End App.
End Serving.


(* ===================================================================== *)
(** ** Stand-ins for the libraries, for running the model on examples *)
(* ===================================================================== *)

Module Fixture.

Definition ascii_lower (c : ascii) : ascii :=
  let n := nat_of_ascii c in
  if (Nat.leb 65 n && Nat.leb n 90)%bool then ascii_of_nat (n + 32) else c.

Fixpoint lower (s : string) : string :=
  match s with
  | EmptyString => EmptyString
  | String c rest => String (ascii_lower c) (lower rest)
  end.

Definition is_digit (c : ascii) : bool :=
  let n := nat_of_ascii c in (Nat.leb 48 n && Nat.leb n 57)%bool.

Fixpoint drop_digits (s : string) : string :=
  match s with
  | EmptyString => EmptyString
  | String c rest => if is_digit c then drop_digits rest else String c (drop_digits rest)
  end.

Definition is_space (c : ascii) : bool :=
  let n := nat_of_ascii c in
  (Nat.eqb n 32 || (Nat.leb 9 n && Nat.leb n 13))%bool.

Definition flush (word : string) (rest : list string) : list string :=
  match word with EmptyString => rest | _ => word :: rest end.

Fixpoint split_from (s : string) (word : string) : list string :=
  match s with
  | EmptyString => flush word []
  | String c rest =>
      if is_space c then flush word (split_from rest EmptyString)
      else split_from rest (String.append word (String c EmptyString))
  end.

Definition split (s : string) : list string := split_from s EmptyString.

Definition stop_list : list string := ["the"; "a"; "is"; "was"; "my"; "i"; "and"].

(** ASCII text: the builtins restricted to ASCII, a lemmatizer that leaves
    every word as it is, a seven-word stop list and a two-valued polarity. *)
Definition text_env : TextEnv :=
  {| str_lower := lower;
     re_sub_digits := drop_digits;
     str_split := split;
     lemmatize := fun w => w;
     in_stop_words := fun w => existsb (String.eqb w) stop_list;
     polarity := fun s => match s with EmptyString => 0 | _ => -(1 # 2) end;
     float_str := fun q => "0.0" |}.

Definition count_occ_str (w : string) (l : list string) : nat :=
  length (filter (fun x => x = w) l).

(** A table that gives every token seen at least twice the vector whose
    100 entries all are the length of the token. *)
Definition embed (sentences : list (list string)) : gmap string (list Q) :=
  let tokens := concat sentences in
  list_to_map
    (map (fun w => (w, replicate 100 (inject_Z (Z.of_nat (String.length w)))))
         (filter (fun w => (2 <= count_occ_str w tokens)%nat) tokens)).

(** A vectorizer whose 500 entries are zero but the first, which counts
    the tokens of the text. *)
Definition count_vectorizer : TfidfVectorizer :=
  {| tfidf_transform := fun text =>
       inject_Z (Z.of_nat (length (split text))) :: replicate 499 0 |}.

Definition column_mean (rows : list (list Q)) (j : nat) : Q :=
  foldr Qplus 0 (map (fun r => nth j r 0) rows)
    / inject_Z (Z.of_nat (length rows)).

Definition width (rows : list (list Q)) : nat :=
  match rows with [] => 0%nat | r :: _ => length r end.

Definition threshold : Stacking.Learner :=
  fun X y row => if Qle_bool 0 (nth 0 row 0) then 1%Z else 0%Z.

Definition agreement (y_true : list Q) (y_pred : list Z) : Q :=
  inject_Z (Z.of_nat (length (filter (fun tp : Q * Z => Qeq_bool tp.1 (inject_Z tp.2) = true)
                                     (zip y_true y_pred)))).

Definition mid_params : Params :=
  {| num_leaves := 31; max_depth := 7; learning_rate := 1 # 10;
     n_estimators := 100; reg_lambda := 1; reg_alpha := 1 |}.

(** No resampling, the exact column means with a spread of 2 for every
    column, the last fifth of the rows (rounded up) as test part, threshold
    learners, the number of agreeing labels as every score, and an explainer
    that accepts the stack. *)
Definition ml_env : MLEnv :=
  {| word2vec_fit := fun sentences =>
       match filter (fun w => (2 <= count_occ_str w (concat sentences))%nat)
                    (concat sentences) with
       | [] => Raise RuntimeError
       | _ => Ok (embed sentences)
       end;
     tfidf_fit_transform := fun texts =>
       Ok (count_vectorizer, map (tfidf_transform count_vectorizer) texts);
     smote_fit_resample := fun X y => Ok (X, y);
     scaler_fit := fun X =>
       {| mean_ := map (column_mean X) (seq 0 (width X));
          scale_ := replicate (width X) 2 |};
     train_test_split := fun n y =>
       let n_test := Nat.div (n + 4) 5 in
       Ok (seq 0 (n - n_test), seq (n - n_test) n_test);
     suggest := fun trials =>
       {| num_leaves := 20 + Z.of_nat (length trials); max_depth := 7;
          learning_rate := 1 # 10; n_estimators := 100;
          reg_lambda := 1; reg_alpha := 1 |};
     lgbm := fun _ => threshold;
     lgbm_100 := threshold;
     xgb_classifier := threshold;
     cat_classifier := threshold;
     f1_score := agreement;
     roc_auc_score := agreement;
     confusion_matrix := fun _ _ => [];
     shap_summary := fun _ _ _ => Ok tt |}.

(** NumPy from 1.24 on, which refuses ragged items; a validation that reads
    no text as a float and refuses arrays of dtype str; learners that take
    an entry that is no number as 0. *)
Definition numpy_env : NumPyEnv :=
  {| np_array_ragged := fun _ => Some ValueError;
     np_concatenate_mixed := fun _ => Raise TypeError;
     float_of_str := fun _ => None;
     reads_str_arrays := false;
     predict_non_finite := fun e row =>
       Stacking.predict e
         ((fun f => match f with Finite q => q | _ => 0 end) <$> row) |}.

(** A table with the columns the notebook's comment lists. *)
Definition csv : DataFrame :=
  [ ("complaint_description",
      [Str "Late fee was charged twice!"; Str "Card declined 3 times";
       Str "late fee again"; Str "The card fee is wrong"; Str "card blocked"]);
    ("complaint_type",
      [Str "billing"; Str "card"; Str "billing"; Str "card"; Str "fraud"]);
    ("transaction_frequency",
      [Str "daily"; Str "weekly"; Str "daily"; Str "monthly"; Str "weekly"]);
    ("resolution_time_days", [Num 3; Num 10; NaN; Num 4; Num 7]);
    ("escalated", [Num 0; Num 1; Num 0; Num 0; Num 1]) ].

(** The same table with only the columns the endpoint also receives. *)
Definition csv_minimal : DataFrame :=
  filter (fun nc => nc.1 ≠ "resolution_time_days") csv.

(** The request for the first row of [csv], its categories already
    encoded as the dashboard sends them. *)
Definition request_fields : gmap string PyVal :=
  <["complaint_description" := PyStr "Late fee was charged twice!"]>
    (<["complaint_type" := PyNum 0]>
       (<["transaction_frequency" := PyNum 0]> ∅)).

Definition request : PyVal := PyDict request_fields.

(** The same complaint without its two categorical fields. *)
Definition request_without_categories : gmap string PyVal :=
  {["complaint_description" := PyStr "Late fee was charged twice!"]}.

(** The body in which the description is JSON's null. *)
Definition null_description : gmap string PyVal :=
  <["complaint_description" := PyNone]>
    (<["complaint_type" := PyNum 0]>
       (<["transaction_frequency" := PyNum 0]> ∅)).

(** The body in which the description is a number. *)
Definition number_description : gmap string PyVal :=
  {["complaint_description" := PyNum 5]}.

Definition fitted_stack : Stacking.Ensemble :=
  Stacking.fit
    (Stacking.StackingClassifier
       [("lgbm", threshold); ("xgb", threshold); ("cat", threshold)] threshold 5)
    [replicate 603 0; replicate 603 1] [0; 1].

(** A working directory that holds the ensemble and nothing else. *)
Definition model_only : Files :=
  {["escalation_model.pkl" := PkEnsemble fitted_stack]}.

Definition globals : Serving.Globals :=
  {| Serving.model := PkEnsemble fitted_stack; Serving.scaler := None;
     Serving.w2v_model := None; Serving.tfidf := None |}.

Definition scaler_stats : StandardScaler :=
  {| mean_ := replicate 603 1; scale_ := replicate 603 2 |}.

(** A working directory that holds a file for every member. *)
Definition full_bundle : Files :=
  <["scaler.pkl" := PkScaler scaler_stats]>
    (<["w2v_model.pkl" := PkWord2Vec (embed [["late"; "fee"]; ["late"; "fee"]])]>
       (<["tfidf_vectorizer.pkl" := PkTfidf count_vectorizer]> model_only)).

(** A table of two tokens. *)
Definition table : gmap string (list Q) :=
  <["late" := replicate 100 1]> (<["fee" := replicate 100 3]> ∅).

(** The notebook run on the two tables, in an empty directory. *)
Definition trained : result Training.Run :=
  @Training.notebook text_env ml_env csv ∅.

Definition trained_minimal : result Training.Run :=
  @Training.notebook text_env ml_env csv_minimal ∅.

(** The run on [csv], were the notebook to stop with an exception the
    empty run. *)
Definition no_run : Training.Run :=
  {| Training.label_encoders := ∅; Training.w2v_model := ∅;
     Training.tfidf := count_vectorizer;
     Training.split :=
       {| Training.X_columns := []; Training.X := [];
          Training.scaler := {| mean_ := []; scale_ := [] |};
          Training.X_scaled := []; Training.y_smote := [];
          Training.train_rows := []; Training.test_rows := [];
          Training.X_train := []; Training.X_test := [];
          Training.y_train := []; Training.y_test := [] |};
     Training.trials := []; Training.best_params := mid_params;
     Training.stack_model := fitted_stack;
     Training.evaluation :=
       {| Training.y_pred := []; Training.f1 := 0; Training.auc := 0;
          Training.cm := [] |};
     Training.files := ∅; Training.predictions_csv := [] |}.

Definition run : Training.Run :=
  match trained with Ok r => r | Raise _ => no_run end.

(** The names the endpoint binds when started after that run. *)
Definition run_globals : Serving.Globals :=
  {| Serving.model := PkEnsemble (Training.stack_model run);
     Serving.scaler := None; Serving.w2v_model := None; Serving.tfidf := None |}.

(** The names of the columns of the training matrix. *)
Definition training_columns (r : result Training.Run) : result (list string) :=
  run ← r; Ok (Training.X_columns (Training.split run)).

(** Row [i] of the training matrix, before and after scaling. *)
Definition training_row (r : result Training.Run) (i : nat) : result (option (list Q)) :=
  run ← r; Ok (Training.X (Training.split run) !! i).

Definition training_vector (r : result Training.Run) (i : nat) : result (option (list Q)) :=
  run ← r; Ok (Training.X_scaled (Training.split run) !! i).

(** The vector the endpoint, started after the run, builds for a body. *)
Definition float_entries (a : NdArray) : list Q :=
  match a with FloatArray v => v | _ => [] end.

Definition served_vector (r : result Training.Run) (body : PyVal) : result (list Q) :=
  run ← r;
  g ← Serving.load_globals (Training.files run);
  a ← @Serving.feature_vector text_env numpy_env g body;
  Ok (float_entries a).


(** [csv] with the description of its second row missing. *)
Definition csv_missing_text : DataFrame :=
  df_set csv "complaint_description"
         [Str "Late fee was charged twice!"; NaN;
          Str "late fee again"; Str "The card fee is wrong"; Str "card blocked"].

(** The table the first cell of the notebook leaves for it. *)
Definition missing_text_preprocessed : DataFrame :=
  match Training.load_and_preprocess csv_missing_text with
  | Ok p => p.2
  | Raise _ => []
  end.

End Fixture.

(* ===================================================================== *)
(** ** Part 3: the dashboard *)
(* ===================================================================== *)

(** What the dashboard and Flask take from Python to turn a value and an
    exception into text. *)
Class UiEnv := {
  (** the text an f-string puts for a value *)
  py_format : PyVal -> string;
  (** [str(e)] of an exception *)
  exc_str : PyExc -> string
}.

(** [key in container] *)
Definition py_in (key : string) (container : PyVal) : result bool :=
  match container with
  | PyDict d => Ok (bool_decide (is_Some (d !! key)))
  | PyList l =>
      Ok (existsb (fun x => match x with PyStr s => String.eqb s key | _ => false end) l)
  | PyStr s =>
      Ok (match String.index 0 key s with Some _ => true | None => false end)
  | _ => Raise TypeError
  end.

(** [container[key]] with a string key *)
Definition py_subscript (container : PyVal) (key : string) : result PyVal :=
  match container with
  | PyDict d =>
      match d !! key with Some v => Ok v | None => Raise KeyError end
  | _ => Raise TypeError
  end.

(** [container.get(key, dflt)] *)
Definition py_get (container : PyVal) (key : string) (dflt : PyVal) : result PyVal :=
  match container with
  | PyDict d => Ok (dict_get d key dflt)
  | _ => Raise AttributeError
  end.

(** [prefix + x] where [prefix] is a str: anything but a str raises. *)
Definition str_add (prefix : string) (x : PyVal) : result string :=
  match x with
  | PyStr s => Ok (String.append prefix s)
  | _ => Raise TypeError
  end.

(** [jsonify(result)] for the two results [predict] builds. *)
Definition jsonify `{UiEnv} (r : Serving.Response) : PyVal :=
  match r with
  | Serving.Escalated label => PyDict {["escalated" := PyNum (inject_Z label)]}
  | Serving.Error e => PyDict {["error" := PyStr (exc_str e)]}
  end.

Module Dashboard.
Section App.
Context `{UiEnv}.

(** [requests.post(url, json=payload)] followed by [response.json()]. *)
Variable post : gmap string PyVal -> result PyVal.

(** The dictionary sent: the text of the text area and the two numbers of
    the number inputs, which are integers from 0 up. *)
Definition payload (complaint_text : string)
    (complaint_type transaction_frequency : nat) : gmap string PyVal :=
  <["complaint_description" := PyStr complaint_text]>
    (<["complaint_type" := PyNum (inject_Z (Z.of_nat complaint_type))]>
       (<["transaction_frequency" := PyNum (inject_Z (Z.of_nat transaction_frequency))]>
          ∅)).

(** What the page shows: [st.success] or [st.error]. *)
Inductive Shown : Type :=
  | Success (message : string)
  | Failure (message : string).

(** The body of [if st.button("Predict Escalation"):]. *)
Definition predict_escalation (complaint_text : string)
    (complaint_type transaction_frequency : nat) : Shown :=
  let payload := payload complaint_text complaint_type transaction_frequency in
  try_except
    (result ← post payload;
     found ← py_in "escalated" result;
     if (found : bool) then
       escalated ← py_subscript result "escalated";
       Ok (Success (String.append "Predicted Escalation: " (py_format escalated)))
     else
       error ← py_get result "error" (PyStr "Unknown error");
       message ← str_add "Prediction error: " error;
       Ok (Failure message))
    (fun e => Failure (String.append "Error connecting to API: " (exc_str e))).

End App.
End Dashboard.

(** The request as the endpoint answers it: the payload arrives as the
    decoded body and the response comes back as its JSON. *)
Definition endpoint `{TextEnv} `{NumPyEnv} `{UiEnv}
    (g : Serving.Globals) (payload : gmap string PyVal) : result PyVal :=
  Ok (jsonify (Serving.predict g (PyDict payload))).

(* ===================================================================== *)
(** ** Further examples *)
(* ===================================================================== *)

Module Examples.

(** The libraries of [Fixture], but with a vocabulary of two terms: the
    TF-IDF matrix has two columns. *)
Definition narrow_vectorizer : TfidfVectorizer :=
  {| tfidf_transform := fun text => [1; 0] |}.

Definition narrow_ml_env : MLEnv :=
  {| word2vec_fit := @word2vec_fit Fixture.ml_env;
     tfidf_fit_transform := fun texts =>
       Ok (narrow_vectorizer, map (tfidf_transform narrow_vectorizer) texts);
     smote_fit_resample := @smote_fit_resample Fixture.ml_env;
     scaler_fit := @scaler_fit Fixture.ml_env;
     train_test_split := @train_test_split Fixture.ml_env;
     suggest := @suggest Fixture.ml_env;
     lgbm := @lgbm Fixture.ml_env;
     lgbm_100 := @lgbm_100 Fixture.ml_env;
     xgb_classifier := @xgb_classifier Fixture.ml_env;
     cat_classifier := @cat_classifier Fixture.ml_env;
     f1_score := @f1_score Fixture.ml_env;
     roc_auc_score := @roc_auc_score Fixture.ml_env;
     confusion_matrix := @confusion_matrix Fixture.ml_env;
     shap_summary := @shap_summary Fixture.ml_env |}.

(** [Fixture.csv] without its column of complaint types. *)
Definition csv_without_type : DataFrame :=
  filter (fun nc => nc.1 ≠ "complaint_type") Fixture.csv.

(** The frame the text features are computed from in the run on
    [Fixture.csv]. *)
Definition cleaned_frame : DataFrame :=
  match Training.load_and_preprocess Fixture.csv with
  | Ok p =>
      match @Training.text_preprocess Fixture.text_env p.2 with
      | Ok df => df
      | Raise _ => []
      end
  | Raise _ => []
  end.

(** Its column of cleaned texts. *)
Definition cleaned_texts : list Cell :=
  match df_get cleaned_frame "cleaned_text" with
  | Ok c => c
  | Raise _ => []
  end.

(** The embedding table fitted on them. *)
Definition cleaned_table : gmap string (list Q) :=
  match @word2vec_fit Fixture.ml_env
          (map (fun text => @str_split Fixture.text_env (Training.cell_text text))
               cleaned_texts) with
  | Ok wv => wv
  | Raise _ => ∅
  end.

(** [Fixture.csv] after the loop over its two categorical columns. *)
Definition encoded : gmap string LabelEncoder * DataFrame :=
  match Training.encode_categoricals Fixture.csv with
  | Ok p => p
  | Raise _ => (∅, [])
  end.

(** Integers are shown in decimal, everything else as a question mark;
    an exception is shown by its name. *)
Definition ui_env : UiEnv :=
  {| py_format := fun v =>
       match v with
       | PyNum q => pretty (Qnum q)
       | _ => "?"
       end;
     exc_str := fun e =>
       match e with
       | AttributeError => "AttributeError"
       | TypeError => "TypeError"
       | ValueError => "ValueError"
       | KeyError => "KeyError"
       | RuntimeError => "RuntimeError"
       | FileNotFoundError => "FileNotFoundError"
       | PreconditionError => "PreconditionError"
       end |}.



(** The request of the second end-to-end scenario of the specification:
    an empty description and the two categories by their names. *)
Definition named_request : gmap string PyVal :=
  <["complaint_description" := PyStr EmptyString]>
    (<["complaint_type" := PyStr "unknown_category_never_seen"]>
       (<["transaction_frequency" := PyStr "daily"]> ∅)).

(** A request whose complaint type is JSON's null. *)
Definition null_type_request : gmap string PyVal :=
  <["complaint_description" := PyStr "Late fee was charged twice!"]>
    (<["complaint_type" := PyNone]>
       (<["transaction_frequency" := PyNum 0]> ∅)).

(** A body that is a JSON array. *)
Definition array_body : PyVal := PyList [PyStr "Late fee was charged twice!"].

End Examples.

(* ===================================================================== *)
(** ** The properties the specification states, as predicates *)
(* ===================================================================== *)

(** The files under which [app.py] looks for the members of the bundle.
    The label encodings have no file: neither program saves or loads them. *)
Definition bundle_files : list string :=
  ["escalation_model.pkl"; "scaler.pkl"; "w2v_model.pkl"; "tfidf_vectorizer.pkl"].

(** Section 6: loading a bundle with a missing member is an error. *)
Definition refuses_partial_bundle (fs : Files) : Prop :=
  (exists name, name ∈ bundle_files /\ fs !! name = None) ->
  exists e, Serving.load_globals fs = Raise e.

(** The served vector of a request: 603 entries, the three numeric fields
    first, whatever the request holds. *)
Definition builds_603 `{TextEnv} `{NumPyEnv} (g : Serving.Globals) (body : PyVal)
  : Prop :=
  exists v, Serving.feature_vector g body = Ok v /\ array_length v = 603%nat.


(** Section 4.8: the rows the tuning trials are scored on and the rows of
    the final evaluation have no row in common. *)
Definition disjoint_rows (tuning evaluation : list nat) : Prop :=
  forall i, i ∈ tuning -> i ∉ evaluation.

(** Every missing cell of the table read from the CSV file holds, once the
    first cell of the notebook has run, the median of its column. *)
Definition all_missing_filled (csv df : DataFrame) : Prop :=
  forall name before after i,
    df_get csv name = Ok before -> df_get df name = Ok after ->
    before !! i = Some NaN ->
    exists m, median before = Num m /\ after !! i = Some (Num m).

(** The request object with the description [s] (none when [s] is empty)
    whose two categorical fields are the numbers [ct] and [tf] (0 when the
    field is missing). *)
Definition text_request (d : gmap string PyVal) (s : string) (ct tf : Q) : Prop :=
  dict_get d "complaint_description" (PyStr EmptyString) = PyStr s /\
  as_number (dict_get d "complaint_type" (PyNum 0)) = Some ct /\
  as_number (dict_get d "transaction_frequency" (PyNum 0)) = Some tf.

(** The cells of the vector the endpoint builds after start-up, in order:
    the sentiment, the two categorical fields as the request holds them,
    the 100 embedding entries and the 500 lexical entries. *)
Definition served_cells `{TextEnv} (s : string) (ct tf : PyVal) : list PyVal :=
  [PyNum (polarity s); ct; tf] ++ (PyNum <$> np_zeros 100) ++ (PyNum <$> np_zeros 500).

(** The array holds the cells, in their order: a float64 array holds every
    cell as its number (a boolean as 1 or 0), an array of dtype str or object
    holds the cells themselves. *)
Definition holds_cells (a : NdArray) (cells : list PyVal) : Prop :=
  match a with
  | FloatArray v => numbers_of cells = Some v
  | NanArray _ => False
  | StrArray c | ObjectArray c => c = cells
  end.



(** The array [np.concatenate] makes of an array followed by two float64
    arrays of numbers. *)
Definition joined (a : NdArray) (w t : list Q) : NdArray :=
  match a with
  | FloatArray v => FloatArray (v ++ w ++ t)
  | NanArray v => NanArray (v ++ (Finite <$> w) ++ (Finite <$> t))
  | StrArray c => StrArray (c ++ (PyNum <$> w) ++ (PyNum <$> t))
  | ObjectArray c => ObjectArray (c ++ (PyNum <$> w) ++ (PyNum <$> t))
  end.

(** The vector the endpoint builds when no preprocessing object is loaded. *)
Definition raw_vector `{TextEnv} (s : string) (ct tf : Q) : list Q :=
  [polarity s; ct; tf] ++ np_zeros 100 ++ np_zeros 500.

(** Every trial of the study was scored on the given rows of the balanced,
    scaled matrix, by a learner fitted on the training part. *)
Definition scored_on `{MLEnv} (s : Training.Split) (rows : list nat)
    (trials : list (Params * Q)) : Prop :=
  Forall (fun t : Params * Q =>
            t.2 = f1_score (take_rows rows (Training.y_smote s))
                           (map (lgbm t.1 (Training.X_train s) (Training.y_train s))
                                (take_rows rows (Training.X_scaled s))))
         trials.

(** The final metrics were computed on the given rows of the same matrix. *)
Definition evaluated_on `{MLEnv} (s : Training.Split) (rows : list nat)
    (stack_model : Stacking.Ensemble) (ev : Training.Evaluation) : Prop :=
  mapM (Stacking.predict stack_model) (take_rows rows (Training.X_scaled s))
  = Ok (Training.y_pred ev) /\
  Training.f1 ev = f1_score (take_rows rows (Training.y_smote s)) (Training.y_pred ev) /\
  Training.auc ev = roc_auc_score (take_rows rows (Training.y_smote s)) (Training.y_pred ev) /\
  Training.cm ev = confusion_matrix (take_rows rows (Training.y_smote s)) (Training.y_pred ev).

(** [m] is the median of the values: the middle entry of their sorted
    arrangement, or the mean of the two middle entries when their number is
    even. *)
Definition is_median (values : list Q) (m : Q) : Prop :=
  exists sorted,
    sorted ≡ₚ values /\ Sorted Qle sorted /\
    m = if Nat.even (length values)
        then (nth (Nat.div (length values) 2 - 1)%nat sorted 0
              + nth (Nat.div (length values) 2) sorted 0) / 2
        else nth (Nat.div (length values) 2) sorted 0.

(** The names of a frame after [df[name] = ...]. *)
Fixpoint names_set (columns : list string) (name : string) : list string :=
  match columns with
  | [] => [name]
  | n :: rest =>
      if String.eqb n name then n :: rest else n :: names_set rest name
  end.

Definition names_drop (columns : list string) (names : list string) : list string :=
  filter (fun n => existsb (String.eqb n) names = false) columns.

(** The names of the columns of the training matrix, from the names of the
    columns of the CSV file: the notebook adds the cleaned text, the
    sentiment score and the embedding column where the file does not have
    them, appends the 100 and the 500 text columns, and drops the three text
    columns and the label. *)
Definition training_layout (header : list string) : list string :=
  names_drop
    (names_drop
       (names_set (names_set (names_set header "cleaned_text") "sentiment_score")
                  "w2v_features"
        ++ Training.numbered "w2v_" 100 ++ Training.numbered "tfidf_" 500)
       ["complaint_description"; "cleaned_text"; "w2v_features"])
    ["escalated"].

(** The cleaned texts the notebook computes from the description column
    of the CSV file: a column of numbers is first filled with its median,
    then every description is read as a string and cleaned. *)
Definition cleaned_descriptions `{TextEnv} (description : Column) : list string :=
  map (fun x => Training.clean_text (PyStr x))
      (astype_str (if is_numeric description
                   then fill_column (median description) description
                   else description)).

(** The column sum the arithmetic mean divides. *)
Definition column_sum (vectors : list (list Q)) (i : nat) : Q :=
  foldr Qplus 0 (map (fun v => nth i v 0) vectors).

(* ===================================================================== *)
(** ** Lemmas on the endpoint *)
(* ===================================================================== *)

Lemma bind_Ok {A B} (m : result A) (f : A -> result B) (b : B) :
  m ≫= f = Ok b -> exists a, m = Ok a /\ f a = Ok b.
Proof.
  destruct m as [a | e]; simpl; intros E; [| discriminate E].
  exists a. split; [reflexivity | exact E].
Qed.

Ltac bind_inv H x Hx :=
  apply bind_Ok in H; destruct H as (x & Hx & H).

Section ServingFacts.
Context `{TextEnv} `{NumPyEnv}.

Lemma load_globals_unfold (fs : Files) :
  Serving.load_globals fs =
  match fs !! "escalation_model.pkl" with
  | Some m => Ok {| Serving.model := m; Serving.scaler := None;
                    Serving.w2v_model := None; Serving.tfidf := None |}
  | None => Raise FileNotFoundError
  end.
Proof.
  unfold Serving.load_globals, joblib_load.
  destruct (fs !! "escalation_model.pkl"); reflexivity.
Qed.

Lemma loaded_globals (fs : Files) (g : Serving.Globals) :
  Serving.load_globals fs = Ok g ->
  fs !! "escalation_model.pkl" = Some (Serving.model g) /\
  Serving.scaler g = None /\ Serving.w2v_model g = None /\ Serving.tfidf g = None.
Proof.
  rewrite load_globals_unfold.
  destruct (fs !! "escalation_model.pkl"); intros E; inversion E; subst; simpl.
  - repeat split; reflexivity.
Qed.

Lemma feature_vector_raw (g : Serving.Globals) (d : gmap string PyVal)
    (s : string) (ct tf : Q) :
  Serving.scaler g = None -> Serving.w2v_model g = None -> Serving.tfidf g = None ->
  text_request d s ct tf ->
  Serving.feature_vector g (PyDict d) = Ok (FloatArray (raw_vector s ct tf)).
Proof.
  intros Hs Hw Ht (Hd & Hc & Hf).
  unfold Serving.feature_vector, raw_vector. simpl.
  rewrite Hd, Hs, Hw, Ht. simpl.
  unfold np_array. simpl. rewrite Hc, Hf. simpl.
  reflexivity.
Qed.

Lemma length_raw_vector (s : string) (ct tf : Q) :
  length (raw_vector s ct tf) = 603%nat.
Proof. reflexivity. Qed.

(** A missing field is served as 0. *)
Lemma text_request_missing (d : gmap string PyVal) (s : string) (ct tf : Q) :
  text_request d s ct tf ->
  (d !! "complaint_type" = None -> ct = 0) /\
  (d !! "transaction_frequency" = None -> tf = 0).
Proof.
  intros (_ & Hc & Hf). unfold dict_get in *.
  split; intros Hn; [rewrite Hn in Hc | rewrite Hn in Hf]; simpl in *; congruence.
Qed.

Lemma description_not_str (g : Serving.Globals) (d : gmap string PyVal) :
  (forall s, d !! "complaint_description" <> Some (PyStr s)) ->
  is_Some (d !! "complaint_description") ->
  Serving.feature_vector g (PyDict d) = Raise AttributeError.
Proof.
  intros Hn [v Hv]. unfold Serving.feature_vector, dict_get. simpl.
  rewrite Hv. simpl.
  destruct v; try reflexivity. exfalso. exact (Hn s Hv).
Qed.

Lemma numbers_of_nums (v : list Q) : numbers_of (PyNum <$> v) = Some v.
Proof.
  induction v as [| q v IH]; [reflexivity |].
  rewrite fmap_cons. simpl. rewrite IH. reflexivity.
Qed.

Lemma numbers_of_app (l1 l2 : list PyVal) (v1 v2 : list Q) :
  numbers_of l1 = Some v1 -> numbers_of l2 = Some v2 ->
  numbers_of (l1 ++ l2) = Some (v1 ++ v2).
Proof.
  revert v1. induction l1 as [| x l1 IH]; simpl; intros v1 E1 E2.
  - injection E1 as E1. subst v1. exact E2.
  - destruct (as_number x) as [q |]; [| discriminate E1].
    destruct (numbers_of l1) as [qs |]; [| discriminate E1].
    injection E1 as E1. subst v1. rewrite (IH qs eq_refl E2). reflexivity.
Qed.

Lemma length_numbers_of (l : list PyVal) (v : list Q) :
  numbers_of l = Some v -> length v = length l.
Proof.
  revert v. induction l as [| x l IH]; simpl; intros v E.
  - injection E as E. subst v. reflexivity.
  - destruct (as_number x) as [q |]; [| discriminate E].
    destruct (numbers_of l) as [qs |]; [| discriminate E].
    injection E as E. subst v. simpl. rewrite (IH qs eq_refl). reflexivity.
Qed.


(** Joining an array with two float64 arrays of numbers never raises. *)
Lemma np_concatenate_floats (a : NdArray) (w t : list Q) :
  np_concatenate [a; FloatArray w; FloatArray t] = Ok (joined a w t).
Proof.
  destruct a; unfold np_concatenate; simpl; rewrite ?app_nil_r; reflexivity.
Qed.

Lemma np_array_holds (items : list PyVal) (a : NdArray) :
  np_array items = Ok a -> holds_cells a items.
Proof.
  unfold np_array. destruct (numbers_of items) as [v |] eqn:E.
  - intros Ea. injection Ea as Ea. subst a. exact E.
  - destruct (existsb is_sequence items).
    + destruct (np_array_ragged items); [discriminate |].
      intros Ea. injection Ea as Ea. subst a. reflexivity.
    + destruct (forallb is_str_or_number items);
        intros Ea; injection Ea as Ea; subst a; reflexivity.
Qed.

Lemma joined_holds (a : NdArray) (items : list PyVal) (w t : list Q) :
  holds_cells a items ->
  holds_cells (joined a w t) (items ++ (PyNum <$> w) ++ (PyNum <$> t)) /\
  array_length (joined a w t) = (length items + (length w + length t))%nat.
Proof.
  destruct a as [v | v | c | c]; simpl; intros Hh; try contradiction.
  - split.
    + apply numbers_of_app; [exact Hh |].
      apply numbers_of_app; apply numbers_of_nums.
    + rewrite !length_app, (length_numbers_of _ _ Hh). reflexivity.
  - subst c. split; [reflexivity |]. rewrite !length_app, !length_fmap. reflexivity.
  - subst c. split; [reflexivity |]. rewrite !length_app, !length_fmap. reflexivity.
Qed.

(** After start-up, for a request with a text description, the body of
    [predict] down to the vector is the array of the three fields joined
    with the two arrays of zeros. *)
Lemma feature_vector_start_up (g : Serving.Globals) (d : gmap string PyVal) (s : string) :
  Serving.scaler g = None -> Serving.w2v_model g = None -> Serving.tfidf g = None ->
  dict_get d "complaint_description" (PyStr EmptyString) = PyStr s ->
  Serving.feature_vector g (PyDict d)
  = (a ← np_array [PyNum (polarity s);
                   dict_get d "complaint_type" (PyNum 0);
                   dict_get d "transaction_frequency" (PyNum 0)];
     Ok (joined a (np_zeros 100) (np_zeros 500))).
Proof.
  intros Hs Hw Ht Hd. unfold Serving.feature_vector.
  cbv beta iota zeta delta [mbind result_bind as_dict].
  rewrite Hd, Hs, Hw, Ht.
  cbv beta iota zeta delta [mbind result_bind Serving.clean_text as_str textblob_polarity].
  destruct (np_array _) as [a | e]; [| reflexivity].
  rewrite np_concatenate_floats. reflexivity.
Qed.

Lemma feature_vector_other_keys (g : Serving.Globals) (d : gmap string PyVal)
    (k : string) (x : PyVal) :
  k <> "complaint_description" -> k <> "complaint_type" ->
  k <> "transaction_frequency" ->
  Serving.feature_vector g (PyDict (<[k := x]> d)) = Serving.feature_vector g (PyDict d).
Proof.
  intros H1 H2 H3. unfold Serving.feature_vector.
  cbv beta iota zeta delta [mbind result_bind as_dict dict_get].
  rewrite !lookup_insert_ne by congruence. reflexivity.
Qed.





End ServingFacts.

(* ===================================================================== *)
(** ** The artifact bundle at start-up *)
(* ===================================================================== *)

(** C3 (the endpoint departs from it): whenever the directory holds the
    ensemble file, start-up succeeds and binds the scaler, the embedding
    table and the lexical vocabulary to None, and it does so all the same
    when any other file is taken out of the directory: no missing member
    makes it fail.  The endpoint then serves: a request gets the vector of
    its sentiment, its two numbers, 100 zeros and 500 zeros, unscaled, and
    the response is the prediction of the ensemble on that vector. *)
Theorem partial_bundle_starts_and_serves `{TextEnv} `{NumPyEnv}
    (fs : Files) (m : Pickle) (d : gmap string PyVal) (s : string) (ct tf : Q) :
  fs !! "escalation_model.pkl" = Some m ->
  text_request d s ct tf ->
  exists g,
    Serving.load_globals fs = Ok g /\
    (Serving.model g = m /\ Serving.scaler g = None /\
     Serving.w2v_model g = None /\ Serving.tfidf g = None) /\
    (forall name, name <> "escalation_model.pkl" ->
                  Serving.load_globals (delete name fs) = Ok g) /\
    Serving.feature_vector g (PyDict d)
    = Ok (FloatArray ([polarity s; ct; tf] ++ replicate 100 0 ++ replicate 500 0)) /\
    Serving.predict g (PyDict d)
    = try_except
        (prediction ←
           Serving.model_predict m
             (FloatArray ([polarity s; ct; tf] ++ replicate 100 0 ++ replicate 500 0));
         Ok (Serving.Escalated prediction))
        Serving.Error.
Proof.
  intros Hm Hreq.
  exists {| Serving.model := m; Serving.scaler := None;
            Serving.w2v_model := None; Serving.tfidf := None |}.
  split; [rewrite load_globals_unfold, Hm; reflexivity |].
  split; [repeat split |]. split.
  - intros name Hname. rewrite load_globals_unfold.
    rewrite lookup_delete_ne by congruence. rewrite Hm. reflexivity.
  - pose proof (feature_vector_raw
                  {| Serving.model := m; Serving.scaler := None;
                     Serving.w2v_model := None; Serving.tfidf := None |}
                  d s ct tf eq_refl eq_refl eq_refl Hreq) as Hv.
    split; [exact Hv |]. unfold Serving.predict. rewrite Hv. reflexivity.
Qed.

Lemma partial_bundle_starts_and_serves_witness :
  exists g,
    Serving.load_globals Fixture.model_only = Ok g /\
    (Serving.model g = PkEnsemble Fixture.fitted_stack /\ Serving.scaler g = None /\
     Serving.w2v_model g = None /\ Serving.tfidf g = None) /\
    (forall name, name <> "escalation_model.pkl" ->
                  Serving.load_globals (delete name Fixture.model_only) = Ok g) /\
    @Serving.feature_vector Fixture.text_env Fixture.numpy_env g
       (PyDict Fixture.request_fields)
    = Ok (FloatArray
            ([@polarity Fixture.text_env "Late fee was charged twice!"; 0; 0]
             ++ replicate 100 0 ++ replicate 500 0)) /\
    @Serving.predict Fixture.text_env Fixture.numpy_env g (PyDict Fixture.request_fields)
    = try_except
        (prediction ←
           @Serving.model_predict Fixture.numpy_env (PkEnsemble Fixture.fitted_stack)
             (FloatArray
                ([@polarity Fixture.text_env "Late fee was charged twice!"; 0; 0]
                 ++ replicate 100 0 ++ replicate 500 0));
         Ok (Serving.Escalated prediction))
        Serving.Error.
Proof.
  assert (Hm : Fixture.model_only !! "escalation_model.pkl"
               = Some (PkEnsemble Fixture.fitted_stack))
    by (vm_compute; reflexivity).
  assert (Hreq : text_request Fixture.request_fields
                              "Late fee was charged twice!" 0 0)
    by (repeat split; vm_compute; reflexivity).
  exact (@partial_bundle_starts_and_serves Fixture.text_env Fixture.numpy_env
           Fixture.model_only (PkEnsemble Fixture.fitted_stack)
           Fixture.request_fields "Late fee was charged twice!" 0 0 Hm Hreq).
Defined.

(** C3 at the failing input: a directory with the ensemble alone, hence
    without the lexical vocabulary, loads, and the endpoint answers the
    request with a prediction. *)
Lemma partial_bundle_is_served :
  ~ refuses_partial_bundle Fixture.model_only /\
  Serving.load_globals Fixture.model_only = Ok Fixture.globals /\
  @Serving.predict Fixture.text_env Fixture.numpy_env Fixture.globals Fixture.request
  = Serving.Escalated 1.
Proof.
  split; [| split; reflexivity].
  intros Hrefuses. destruct Hrefuses as [e He].
  - exists "tfidf_vectorizer.pkl". split; [| reflexivity].
    unfold bundle_files. set_solver.
  - discriminate He.
Qed.

(* ===================================================================== *)
(** ** The text normalizer on the two paths *)
(* ===================================================================== *)

(** C6 (the endpoint departs from it): on a string the two normalizers
    return the same text; on a description that is a number the notebook's
    normalizer catches the failure and returns the empty text, while the
    endpoint's normalizer raises AttributeError and the request is answered
    with an error. *)
Theorem serving_clean_text_raises `{TextEnv} `{NumPyEnv}
    (g : Serving.Globals) (s : string) :
  Serving.clean_text (PyStr s) = Ok (Training.clean_text (PyStr s)) /\
  Training.clean_text (PyNum 5) = EmptyString /\
  Serving.clean_text (PyNum 5) = Raise AttributeError /\
  Serving.predict g (PyDict Fixture.number_description) = Serving.Error AttributeError.
Proof.
  split; [reflexivity |]. split; [reflexivity |]. split; [reflexivity |].
  unfold Serving.predict, Serving.feature_vector, Fixture.number_description.
  simpl. unfold dict_get. rewrite lookup_singleton_eq. reflexivity.
Qed.

(* ===================================================================== *)
(** ** The served feature vector *)
(* ===================================================================== *)

(** C9 (as the program behaves): after start-up, for every request object
    whose description is a string (or absent), the vector the endpoint
    builds has exactly 603 entries and holds, in this order, the sentiment,
    complaint_type and transaction_frequency as the request has them (0 when
    absent), the 100 embedding entries and the 500 lexical entries; it is
    built whenever neither of the two fields is a JSON array; and a field
    under any other key changes nothing. *)
Theorem served_vector_layout `{TextEnv} `{NumPyEnv}
    (fs : Files) (g : Serving.Globals) (d : gmap string PyVal) (s : string) :
  Serving.load_globals fs = Ok g ->
  dict_get d "complaint_description" (PyStr EmptyString) = PyStr s ->
  (forall v, Serving.feature_vector g (PyDict d) = Ok v ->
     array_length v = 603%nat /\
     holds_cells v (served_cells s (dict_get d "complaint_type" (PyNum 0))
                                   (dict_get d "transaction_frequency" (PyNum 0)))) /\
  (is_sequence (dict_get d "complaint_type" (PyNum 0)) = false ->
   is_sequence (dict_get d "transaction_frequency" (PyNum 0)) = false ->
   is_ok (Serving.feature_vector g (PyDict d)) = true) /\
  (forall k x, k <> "complaint_description" -> k <> "complaint_type" ->
               k <> "transaction_frequency" ->
               Serving.feature_vector g (PyDict (<[k := x]> d))
               = Serving.feature_vector g (PyDict d)).
Proof.
  intros Hload Hd.
  destruct (loaded_globals fs g Hload) as (_ & Hs & Hw & Ht).
  pose proof (feature_vector_start_up g d s Hs Hw Ht Hd) as Hv.
  split; [| split].
  - intros v E. rewrite Hv in E. bind_inv E a Ha. injection E as E. subst v.
    apply np_array_holds in Ha.
    destruct (joined_holds a _ (np_zeros 100) (np_zeros 500) Ha) as [Hh Hl].
    split; [| exact Hh].
    rewrite Hl. unfold np_zeros. rewrite !length_replicate. reflexivity.
  - intros Hct Htf. rewrite Hv. unfold np_array.
    destruct (numbers_of _); [reflexivity |].
    cbn [existsb is_sequence]. rewrite Hct, Htf. cbn [orb].
    destruct (forallb is_str_or_number _); reflexivity.
  - intros k x H1 H2 H3. apply feature_vector_other_keys; assumption.
Qed.

Lemma served_vector_layout_witness :
  is_ok (@Serving.feature_vector Fixture.text_env Fixture.numpy_env
           Fixture.globals (PyDict Examples.named_request)) = true.
Proof.
  assert (Hload : Serving.load_globals Fixture.model_only = Ok Fixture.globals)
    by (vm_compute; reflexivity).
  assert (Hd : dict_get Examples.named_request "complaint_description"
                        (PyStr EmptyString) = PyStr EmptyString)
    by (vm_compute; reflexivity).
  refine (proj1 (proj2 (@served_vector_layout Fixture.text_env Fixture.numpy_env
                          Fixture.model_only Fixture.globals Examples.named_request
                          EmptyString Hload Hd)) _ _);
    vm_compute; reflexivity.
Defined.

(** C9 (as stated) fails: a request whose description is null is answered
    without any feature vector being built. *)
Lemma null_description_builds_no_vector :
  ~ @builds_603 Fixture.text_env Fixture.numpy_env
      Fixture.globals (PyDict Fixture.null_description).
Proof.
  intros [v [Ev _]].
  rewrite (@description_not_str Fixture.text_env Fixture.numpy_env) in Ev.
  - discriminate Ev.
  - intros s E. vm_compute in E. discriminate E.
  - exists PyNone. reflexivity.
Qed.

(* ===================================================================== *)
(** ** The embedding average *)
(* ===================================================================== *)

Section EmbeddingFacts.

Lemma length_vec_add (u v : list Q) (n : nat) :
  length u = n -> length v = n -> length (vec_add u v) = n.
Proof.
  intros Hu Hv. unfold vec_add. rewrite length_zip_with. lia.
Qed.

Lemma nth_vec_add (u v : list Q) (i : nat) :
  (i < length u)%nat -> (i < length v)%nat ->
  nth i (vec_add u v) 0 = nth i u 0 + nth i v 0.
Proof.
  unfold vec_add. revert v i.
  induction u as [| a u IH]; intros [| b v] i Hu Hv; simpl in *; try lia.
  destruct i as [| i]; [reflexivity |].
  apply IH; lia.
Qed.

Lemma length_foldl_vec_add (vs : list (list Q)) (v : list Q) (n : nat) :
  length v = n -> Forall (fun u => length u = n) vs ->
  length (foldl vec_add v vs) = n.
Proof.
  revert v. induction vs as [| u vs IH]; intros v Hv Hvs; simpl; [exact Hv |].
  apply Forall_cons in Hvs as [Hu Hrest].
  apply IH; [apply length_vec_add; auto | exact Hrest].
Qed.

Lemma nth_foldl_vec_add (vs : list (list Q)) (v : list Q) (n i : nat) :
  length v = n -> Forall (fun u => length u = n) vs -> (i < n)%nat ->
  nth i (foldl vec_add v vs) 0 == nth i v 0 + column_sum vs i.
Proof.
  revert v. induction vs as [| u vs IH]; intros v Hv Hvs Hi; simpl.
  - unfold column_sum. simpl. rewrite Qplus_0_r. reflexivity.
  - apply Forall_cons in Hvs as [Hu Hrest].
    rewrite IH; [| apply length_vec_add; assumption | assumption | assumption].
    rewrite nth_vec_add by lia.
    unfold column_sum. simpl. rewrite Qplus_assoc. reflexivity.
Qed.

(** The mean of equally wide vectors, entry by entry. *)
Lemma np_mean_axis0_spec (vectors : list (list Q)) (n i : nat) :
  vectors <> [] -> Forall (fun u => length u = n) vectors -> (i < n)%nat ->
  length (np_mean_axis0 vectors) = n /\
  exists x, np_mean_axis0 vectors !! i = Some x /\
            x == column_sum vectors i / inject_Z (Z.of_nat (length vectors)).
Proof.
  intros Hne Hall Hi. destruct vectors as [| v vs]; [congruence |].
  apply Forall_cons in Hall as [Hv Hvs].
  unfold np_mean_axis0.
  assert (Hlen : length (foldl vec_add v vs) = n)
    by (apply length_foldl_vec_add; auto).
  split; [rewrite length_fmap; exact Hlen |].
  exists (nth i (foldl vec_add v vs) 0 / inject_Z (Z.of_nat (length (v :: vs)))).
  split.
  - rewrite list_lookup_fmap.
    destruct (nth_lookup_or_length (foldl vec_add v vs) i 0) as [E | E];
      [rewrite E; reflexivity | lia].
  - rewrite (nth_foldl_vec_add vs v n i) by auto.
    unfold column_sum. simpl. reflexivity.
Qed.

Lemma present_vectors_width (wv : gmap string (list Q)) (words : list string) (n : nat) :
  (forall w v, wv !! w = Some v -> length v = n) ->
  Forall (fun u => length u = n) (omap (fun word => wv !! word) words).
Proof.
  intros Hwv. apply Forall_forall. intros v Hin.
  apply list_elem_of_omap in Hin. destruct Hin as (w & _ & Hw).
  exact (Hwv w v Hw).
Qed.

End EmbeddingFacts.

(** C7: with a table whose vectors have 100 entries, the notebook's and the
    endpoint's [get_w2v_vector] return the same vector and never raise; it has
    100 entries; it is the zero vector when no token of the text is in the
    table; otherwise each entry is the sum of that entry over the vectors of
    the tokens found, absent tokens being skipped, divided by their number. *)
Theorem embedding_average `{TextEnv} (wv : gmap string (list Q)) (text : string) :
  (forall w v, wv !! w = Some v -> length v = 100%nat) ->
  Serving.get_w2v_vector text (PkWord2Vec wv) = Ok (Training.get_w2v_vector wv text) /\
  length (Training.get_w2v_vector wv text) = 100%nat /\
  (omap (fun word => wv !! word) (str_split text) = [] ->
   Training.get_w2v_vector wv text = replicate 100 0) /\
  (omap (fun word => wv !! word) (str_split text) <> [] ->
   forall i, (i < 100)%nat ->
   exists x, Training.get_w2v_vector wv text !! i = Some x /\
             x == column_sum (omap (fun word => wv !! word) (str_split text)) i
                  / inject_Z (Z.of_nat (length (omap (fun word => wv !! word)
                                                     (str_split text))))).
Proof.
  intros Hwv.
  pose proof (present_vectors_width wv (str_split text) 100 Hwv) as Hall.
  unfold Serving.get_w2v_vector, Training.get_w2v_vector.
  destruct (omap (fun word => wv !! word) (str_split text)) as [| v vs] eqn:E.
  - repeat split; try reflexivity. intros Hne. congruence.
  - split; [reflexivity |]. split; [| split].
    + apply (np_mean_axis0_spec (v :: vs) 100 0); [congruence | exact Hall | lia].
    + intros Hnil. discriminate Hnil.
    + intros _ i Hi.
      apply (np_mean_axis0_spec (v :: vs) 100 i); [congruence | exact Hall | exact Hi].
Qed.

Lemma embedding_average_witness :
  length (@Training.get_w2v_vector Fixture.text_env Fixture.table "late fee refund")
  = 100%nat.
Proof.
  assert (Htable : forall w v, Fixture.table !! w = Some v -> length v = 100%nat).
  { apply map_Forall_insert_2; [reflexivity |].
    apply map_Forall_insert_2; [reflexivity |].
    apply map_Forall_empty. }
  exact (proj1 (proj2 (@embedding_average Fixture.text_env Fixture.table
                         "late fee refund" Htable))).
Defined.

(* ===================================================================== *)
(** ** The stacking ensemble: states and learner order *)
(* ===================================================================== *)

(** C8: [predict] on a freshly constructed ensemble, or on one whose fit has
    begun but not finished, raises PreconditionError; [predict] succeeds
    exactly in the fitted state, which [fit] reaches; and the identifiers in
    the order [predict] uses them are those the ensemble had when [fit] was
    called, also when the list of estimators is reassigned afterwards.  For
    the notebook's ensemble they are lgbm, xgb, cat. *)
Theorem predict_requires_fit `{MLEnv}
    (e : Stacking.Ensemble) (X : list (list Q)) (y : list Q) (x : list Q)
    (l : list (string * Stacking.Learner)) (meta : Stacking.Learner) (k : nat)
    (s : Training.Split) (best_params : Params) :
  Stacking.predict (Stacking.StackingClassifier l meta k) x = Raise PreconditionError /\
  Stacking.predict (Stacking.begin_fit e) x = Raise PreconditionError /\
  is_ok (Stacking.predict e x)
  = match Stacking.state e with Stacking.Fitted _ => true | _ => false end /\
  is_ok (Stacking.predict (Stacking.fit e X y) x) = true /\
  Stacking.predict_ids (Stacking.fit e X y) x = Ok (map fst (Stacking.estimators e)) /\
  Stacking.predict_ids (Stacking.set_estimators (Stacking.fit e X y) l) x
  = Ok (map fst (Stacking.estimators e)) /\
  Stacking.predict_ids (Training.build_stack s best_params) x = Ok ["lgbm"; "xgb"; "cat"].
Proof.
  repeat split; try reflexivity.
  - unfold Stacking.predict, Stacking.base_predictions.
    destruct (Stacking.state e); reflexivity.
  - unfold Stacking.predict_ids, Stacking.base_predictions. simpl.
    rewrite !map_map. simpl. reflexivity.
  - unfold Stacking.predict_ids, Stacking.base_predictions. simpl.
    rewrite !map_map. simpl. reflexivity.
Qed.

(* ===================================================================== *)
(** ** Lemmas on the notebook *)
(* ===================================================================== *)

Section NotebookFacts.
Context `{TextEnv} `{MLEnv}.

Lemma notebook_steps (csv : DataFrame) (fs : Files) (run : Training.Run) :
  Training.notebook csv fs = Ok run ->
  exists df cleaned tf,
    Training.load_and_preprocess csv = Ok (Training.label_encoders run, df) /\
    Training.text_preprocess df = Ok cleaned /\
    Training.text_features cleaned = Ok tf /\
    Training.balance_scale_split (Training.tf_df tf) = Ok (Training.split run) /\
    Training.tune (Training.split run)
    = Ok (Training.trials run, Training.best_params run) /\
    Training.stack_model run
    = Training.build_stack (Training.split run) (Training.best_params run) /\
    Training.evaluate (Training.split run) (Training.stack_model run)
    = Ok (Training.evaluation run) /\
    Training.files run
    = joblib_dump fs (PkEnsemble (Training.stack_model run)) "escalation_model.pkl".
Proof.
  unfold Training.notebook. intros E.
  bind_inv E p Hp. destruct p as [les df].
  bind_inv E cleaned Hc. bind_inv E tf Ht. bind_inv E s Hs.
  bind_inv E q Hq. destruct q as [trials best].
  bind_inv E ev He. bind_inv E u Hu. inversion E; subst; clear E. simpl.
  exists df, cleaned, tf. repeat split; assumption.
Qed.

Lemma split_rows (df : DataFrame) (s : Training.Split) :
  Training.balance_scale_split df = Ok s ->
  Training.X_train s = take_rows (Training.train_rows s) (Training.X_scaled s) /\
  Training.y_train s = take_rows (Training.train_rows s) (Training.y_smote s) /\
  Training.X_test s = take_rows (Training.test_rows s) (Training.X_scaled s) /\
  Training.y_test s = take_rows (Training.test_rows s) (Training.y_smote s) /\
  train_test_split (length (Training.X_scaled s)) (Training.y_smote s)
  = Ok (Training.train_rows s, Training.test_rows s).
Proof.
  unfold Training.balance_scale_split. intros E.
  bind_inv E X HX. bind_inv E y Hy. bind_inv E Xm HXm. bind_inv E ym Hym.
  bind_inv E p Hp. destruct p as [X_smote y_smote].
  bind_inv E q Hq. destruct q as [train_rows test_rows].
  inversion E; subst; clear E. simpl.
  repeat split; try reflexivity; try assumption.
Qed.

(** The scaler is fitted on the balanced matrix and applied to each of its
    rows. *)
Lemma split_scaler (df : DataFrame) (s : Training.Split) :
  Training.balance_scale_split df = Ok s ->
  exists y X_smote,
    smote_fit_resample (Training.X s) y = Ok (X_smote, Training.y_smote s) /\
    Training.scaler s = scaler_fit X_smote /\
    Training.X_scaled s = map (scaler_transform (Training.scaler s)) X_smote.
Proof.
  unfold Training.balance_scale_split. intros E.
  bind_inv E X HX. bind_inv E y Hy. bind_inv E Xm HXm. bind_inv E ym Hym.
  bind_inv E p Hp. destruct p as [X_smote y_smote].
  bind_inv E q Hq. destruct q as [train_rows test_rows].
  inversion E; subst; clear E. simpl.
  exists ym, X_smote. repeat split. exact Hp.
Qed.

Lemma optimize_length (objective : Params -> Q) (n : nat) (trials : list (Params * Q)) :
  length (Training.optimize objective n trials) = (n + length trials)%nat.
Proof.
  revert trials. induction n as [| n IH]; intros trials; simpl; [reflexivity |].
  rewrite IH, length_app. simpl. lia.
Qed.

Lemma optimize_values (objective : Params -> Q) (n : nat) (trials : list (Params * Q)) :
  Forall (fun t : Params * Q => t.2 = objective t.1) trials ->
  Forall (fun t : Params * Q => t.2 = objective t.1)
         (Training.optimize objective n trials).
Proof.
  revert trials. induction n as [| n IH]; intros trials Hall; simpl; [exact Hall |].
  apply IH. apply Forall_app. split; [exact Hall |].
  apply Forall_cons. split; [reflexivity | apply Forall_nil; exact I].
Qed.

Lemma tune_trials (s : Training.Split) (trials : list (Params * Q)) (best : Params) :
  Training.tune s = Ok (trials, best) ->
  length trials = 30%nat /\
  Forall (fun t : Params * Q => t.2 = Training.objective s t.1) trials.
Proof.
  unfold Training.tune. cbv zeta.
  remember (Training.optimize (Training.objective s) 30 []) as found eqn:Hfound.
  intros E.
  assert (Htrials : trials = found).
  { destruct (Training.best_trial found) as [b |]; [| discriminate E].
    injection E as Et _. symmetry. exact Et. }
  subst trials found. split.
  - apply optimize_length.
  - apply optimize_values. apply Forall_nil. exact I.
Qed.

Lemma evaluate_inv (s : Training.Split) (m : Stacking.Ensemble) (ev : Training.Evaluation) :
  Training.evaluate s m = Ok ev ->
  mapM (Stacking.predict m) (Training.X_test s) = Ok (Training.y_pred ev) /\
  Training.f1 ev = f1_score (Training.y_test s) (Training.y_pred ev) /\
  Training.auc ev = roc_auc_score (Training.y_test s) (Training.y_pred ev) /\
  Training.cm ev = confusion_matrix (Training.y_test s) (Training.y_pred ev).
Proof.
  unfold Training.evaluate. intros E. bind_inv E y_pred Hy.
  inversion E; subst; clear E. simpl. repeat split. exact Hy.
Qed.

(** The thirty trials and the final metrics read the same rows. *)
Lemma notebook_scoring (csv : DataFrame) (fs : Files) (run : Training.Run) :
  Training.notebook csv fs = Ok run ->
  length (Training.trials run) = 30%nat /\
  scored_on (Training.split run) (Training.test_rows (Training.split run))
            (Training.trials run) /\
  evaluated_on (Training.split run) (Training.test_rows (Training.split run))
               (Training.stack_model run) (Training.evaluation run).
Proof.
  intros E.
  destruct (notebook_steps csv fs run E)
    as (df & cleaned & tf & _ & _ & _ & Hs & Ht & _ & He & _).
  destruct (split_rows _ _ Hs) as (_ & _ & HX & Hy & _).
  destruct (tune_trials _ _ _ Ht) as [Hlen Hall].
  split; [exact Hlen |]. split.
  - unfold scored_on. rewrite <- HX, <- Hy. exact Hall.
  - unfold evaluated_on. rewrite <- HX, <- Hy. apply evaluate_inv. exact He.
Qed.

End NotebookFacts.

(** The example run does not stop with an exception. *)
Lemma fixture_run :
  @Training.notebook Fixture.text_env Fixture.ml_env Fixture.csv ∅ = Ok Fixture.run.
Proof. vm_compute. reflexivity. Qed.

Lemma fixture_run_globals :
  Serving.load_globals (Training.files Fixture.run) = Ok Fixture.run_globals.
Proof. vm_compute. reflexivity. Qed.

(* ===================================================================== *)
(** ** The held-out split of the hyperparameter search *)
(* ===================================================================== *)

(** C4 (as the program behaves): a run has exactly thirty trials; every one
    is scored on the test part of the one split made before the search; and
    the final F1, AUC and confusion matrix are computed on that same test
    part. *)
Theorem trials_and_evaluation_share_the_test_split `{TextEnv} `{MLEnv}
    (csv : DataFrame) (fs : Files) (run : Training.Run) :
  Training.notebook csv fs = Ok run ->
  length (Training.trials run) = 30%nat /\
  scored_on (Training.split run) (Training.test_rows (Training.split run))
            (Training.trials run) /\
  evaluated_on (Training.split run) (Training.test_rows (Training.split run))
               (Training.stack_model run) (Training.evaluation run).
Proof. apply notebook_scoring. Qed.

Lemma trials_and_evaluation_share_the_test_split_witness :
  length (Training.trials Fixture.run) = 30%nat /\
  @scored_on Fixture.ml_env (Training.split Fixture.run)
     (Training.test_rows (Training.split Fixture.run)) (Training.trials Fixture.run) /\
  @evaluated_on Fixture.ml_env (Training.split Fixture.run)
     (Training.test_rows (Training.split Fixture.run))
     (Training.stack_model Fixture.run) (Training.evaluation Fixture.run).
Proof.
  exact (@trials_and_evaluation_share_the_test_split
           Fixture.text_env Fixture.ml_env Fixture.csv ∅ Fixture.run fixture_run).
Defined.

(** C4 (as stated) fails: in the run on the example table the trials are
    scored on row 4 and the final metrics are computed on row 4, so the two
    sets of rows are not disjoint. *)
Lemma tuning_rows_are_the_evaluation_rows :
  @Training.notebook Fixture.text_env Fixture.ml_env Fixture.csv ∅ = Ok Fixture.run /\
  @scored_on Fixture.ml_env (Training.split Fixture.run) [4%nat]
     (Training.trials Fixture.run) /\
  @evaluated_on Fixture.ml_env (Training.split Fixture.run) [4%nat]
     (Training.stack_model Fixture.run) (Training.evaluation Fixture.run) /\
  ~ disjoint_rows [4%nat] [4%nat].
Proof.
  split; [exact fixture_run |].
  assert (Hrows : Training.test_rows (Training.split Fixture.run) = [4%nat])
    by (vm_compute; reflexivity).
  destruct (@notebook_scoring Fixture.text_env Fixture.ml_env Fixture.csv ∅
              Fixture.run fixture_run) as (_ & Hs & He).
  rewrite Hrows in Hs, He.
  split; [exact Hs |]. split; [exact He |].
  intros Hd.
  assert (H4 : 4%nat ∈ [4%nat]) by (apply elem_of_cons; left; reflexivity).
  exact (Hd 4%nat H4 H4).
Qed.

(* ===================================================================== *)
(** ** Missing values in the training table *)
(* ===================================================================== *)

Section FillFacts.

Lemma df_get_fillna (df : DataFrame) (name : string) :
  df_get (fillna_median df) name
  = result_map (fun c => if is_numeric c then fill_column (median c) c else c)
               (df_get df name).
Proof.
  induction df as [| [n c] df IH]; simpl; [reflexivity |].
  destruct (is_numeric c) eqn:Hn; simpl; destruct (String.eqb n name); simpl;
    rewrite ?Hn; auto.
Qed.

Lemma length_insert_sorted (x : Q) (l : list Q) :
  length (insert_sorted x l) = S (length l).
Proof.
  induction l as [| y l IH]; simpl; [reflexivity |].
  destruct (Qle_bool x y); simpl; [reflexivity | rewrite IH; reflexivity].
Qed.

Lemma length_sort_Q (l : list Q) : length (sort_Q l) = length l.
Proof.
  induction l as [| x l IH]; simpl; [reflexivity |].
  unfold sort_Q in *. simpl. rewrite length_insert_sorted, IH. reflexivity.
Qed.

Lemma insert_sorted_perm (x : Q) (l : list Q) : insert_sorted x l ≡ₚ x :: l.
Proof.
  induction l as [| y l IH]; simpl; [reflexivity |].
  destruct (Qle_bool x y); [reflexivity |].
  rewrite IH. apply Permutation_swap.
Qed.

Lemma sort_Q_perm (l : list Q) : sort_Q l ≡ₚ l.
Proof.
  induction l as [| x l IH]; [reflexivity |].
  unfold sort_Q in *. simpl. rewrite insert_sorted_perm, IH. reflexivity.
Qed.

Lemma Qle_bool_false (x y : Q) : Qle_bool x y = false -> y <= x.
Proof.
  intros Hf. apply Qlt_le_weak. apply Qnot_le_lt. intros Hle.
  apply Qle_bool_iff in Hle. congruence.
Qed.

Lemma insert_sorted_sorted (x : Q) (l : list Q) :
  Sorted Qle l -> Sorted Qle (insert_sorted x l).
Proof.
  induction l as [| y l IH]; intros Hs; simpl.
  - repeat constructor.
  - destruct (Qle_bool x y) eqn:Hxy.
    + constructor; [exact Hs |]. constructor. apply Qle_bool_iff. exact Hxy.
    + apply Sorted_inv in Hs. destruct Hs as [Hs Hhd].
      constructor; [exact (IH Hs) |].
      destruct l as [| z l]; simpl.
      * constructor. exact (Qle_bool_false _ _ Hxy).
      * destruct (Qle_bool x z); constructor.
        -- exact (Qle_bool_false _ _ Hxy).
        -- inversion Hhd. assumption.
Qed.

Lemma sort_Q_sorted (l : list Q) : Sorted Qle (sort_Q l).
Proof.
  induction l as [| x l IH]; [constructor |].
  unfold sort_Q in *. simpl. apply insert_sorted_sorted. exact IH.
Qed.

(** What [median] computes is the median of the values of the column. *)
Lemma median_is_median (c : Column) (m : Q) :
  median c = Num m -> is_median (numbers c) m.
Proof.
  unfold median. intros E. exists (sort_Q (numbers c)).
  split; [apply sort_Q_perm |]. split; [apply sort_Q_sorted |].
  rewrite length_sort_Q in E.
  destruct (length (numbers c)) as [| n] eqn:Hn; [discriminate E |].
  destruct (Nat.even (S n)); injection E as E; symmetry; exact E.
Qed.

Lemma median_of_numbers (c : Column) :
  numbers c <> [] -> exists m, median c = Num m.
Proof.
  intros Hne. unfold median.
  pose proof (length_sort_Q (numbers c)) as Hlen.
  destruct (length (sort_Q (numbers c))) as [| n] eqn:E.
  - destruct (numbers c); [congruence | discriminate Hlen].
  - destruct (Nat.even (S n)); eexists; reflexivity.
Qed.

Lemma fill_column_spec (m : Q) (c : Column) :
  length (fill_column (Num m) c) = length c /\
  (NaN ∉ fill_column (Num m) c) /\
  forall i x, c !! i = Some x ->
              fill_column (Num m) c !! i
              = Some (match x with NaN => Num m | _ => x end).
Proof.
  unfold fill_column. split; [apply length_fmap |]. split.
  - intros Hin. apply list_elem_of_fmap in Hin. destruct Hin as (x & Hx & _).
    destruct x; discriminate Hx.
  - intros i x Hi. rewrite list_lookup_fmap, Hi. reflexivity.
Qed.

End FillFacts.

(** C10 (as the program behaves): in a run, after the two categorical
    columns have been label-encoded, every missing cell of every numeric
    column that has a value is replaced by the median of that column (the
    middle of its sorted values), and
    the text cleaning, the text features, the balancing, the scaling and the
    fits that follow read the filled table; a column that is not numeric,
    such as the complaint text, is left as it is.  At serving time a missing
    complaint_type or transaction_frequency is served as 0. *)
Theorem missing_numbers_get_the_median `{TextEnv} `{MLEnv} `{NumPyEnv}
    (csv : DataFrame) (fs : Files) (run : Training.Run)
    (g : Serving.Globals) (d : gmap string PyVal) (s : string) (ct tf : Q) :
  Training.notebook csv fs = Ok run ->
  Serving.load_globals (Training.files run) = Ok g ->
  text_request d s ct tf ->
  d !! "complaint_type" = None -> d !! "transaction_frequency" = None ->
  (exists encoded cleaned tf,
     Training.encode_categoricals csv = Ok (Training.label_encoders run, encoded) /\
     Training.text_preprocess (fillna_median encoded) = Ok cleaned /\
     Training.text_features cleaned = Ok tf /\
     Training.balance_scale_split (Training.tf_df tf) = Ok (Training.split run) /\
     forall name column,
       df_get encoded name = Ok column ->
       (is_numeric column = false -> df_get (fillna_median encoded) name = Ok column) /\
       (is_numeric column = true -> numbers column <> [] ->
        exists m filled,
          median column = Num m /\
          is_median (numbers column) m /\
          df_get (fillna_median encoded) name = Ok filled /\
          length filled = length column /\
          (NaN ∉ filled) /\
          forall i x, column !! i = Some x ->
                      filled !! i = Some (match x with NaN => Num m | _ => x end))) /\
  Serving.feature_vector g (PyDict d)
  = Ok (FloatArray ([polarity s; 0; 0] ++ replicate 100 0 ++ replicate 500 0)).
Proof.
  intros Hrun Hload Hreq Hct Htf. split.
  - destruct (notebook_steps csv fs run Hrun)
      as (df & cleaned & feats & Hl & Hc & Ht & Hs & _).
    unfold Training.load_and_preprocess in Hl.
    bind_inv Hl p Hp. destruct p as [les encoded].
    inversion Hl; subst; clear Hl.
    exists encoded, cleaned, feats.
    split; [exact Hp |]. split; [exact Hc |]. split; [exact Ht |].
    split; [exact Hs |].
    intros name column Hcol. split.
    + intros Hnum. rewrite df_get_fillna, Hcol. simpl. rewrite Hnum. reflexivity.
    + intros Hnum Hne. destruct (median_of_numbers column Hne) as [m Hm].
      exists m, (fill_column (Num m) column).
      destruct (fill_column_spec m column) as (Hlen & Hnan & Hat).
      split; [exact Hm |]. split; [exact (median_is_median column m Hm) |].
      split; [| split; [exact Hlen | split; [exact Hnan | exact Hat]]].
      rewrite df_get_fillna, Hcol. simpl. rewrite Hnum, Hm. reflexivity.
  - destruct (loaded_globals _ g Hload) as (_ & Hs & Hw & Ht).
    rewrite (feature_vector_raw g d s ct tf Hs Hw Ht Hreq).
    destruct (text_request_missing d s ct tf Hreq) as [Hc0 Hf0].
    rewrite (Hc0 Hct), (Hf0 Htf). reflexivity.
Qed.

Lemma missing_numbers_get_the_median_witness :
  @Serving.feature_vector Fixture.text_env Fixture.numpy_env Fixture.run_globals
     (PyDict Fixture.request_without_categories)
  = Ok (FloatArray
          ([@polarity Fixture.text_env "Late fee was charged twice!"; 0; 0]
           ++ replicate 100 0 ++ replicate 500 0)).
Proof.
  assert (Hreq : text_request Fixture.request_without_categories
                              "Late fee was charged twice!" 0 0)
    by (repeat split; vm_compute; reflexivity).
  exact (proj2 (@missing_numbers_get_the_median
                  Fixture.text_env Fixture.ml_env Fixture.numpy_env
                  Fixture.csv ∅ Fixture.run Fixture.run_globals
                  Fixture.request_without_categories
                  "Late fee was charged twice!" 0 0
                  fixture_run fixture_run_globals Hreq eq_refl eq_refl)).
Defined.

(** C10 (as stated) fails: the missing description of the second complaint
    is still missing after the first cell has run; the text column has no
    median. *)
Lemma missing_text_is_not_filled :
  result_map snd (Training.load_and_preprocess Fixture.csv_missing_text)
  = Ok Fixture.missing_text_preprocessed /\
  ~ all_missing_filled Fixture.csv_missing_text Fixture.missing_text_preprocessed.
Proof.
  split; [vm_compute; reflexivity |].
  intros Hall.
  destruct (Hall "complaint_description"
                 [Str "Late fee was charged twice!"; NaN;
                  Str "late fee again"; Str "The card fee is wrong";
                  Str "card blocked"]
                 [Str "Late fee was charged twice!"; NaN;
                  Str "late fee again"; Str "The card fee is wrong";
                  Str "card blocked"]
                 1%nat) as (m & _ & Hm);
    try (vm_compute; reflexivity).
  discriminate Hm.
Qed.

(* ===================================================================== *)
(** ** Categorical codes *)
(* ===================================================================== *)

Section EncoderFacts.











End EncoderFacts.

Section CategoryFacts.
Context `{TextEnv} `{NumPyEnv}.





End CategoryFacts.




(* ===================================================================== *)
(** ** The layout of the training matrix *)
(* ===================================================================== *)

Section LayoutFacts.
Context `{TextEnv} `{MLEnv}.

Lemma df_columns_set (df : DataFrame) (name : string) (column : list Cell) :
  df_columns (df_set df name column) = names_set (df_columns df) name.
Proof.
  induction df as [| [n c] df IH]; simpl; [reflexivity |].
  destruct (String.eqb n name); simpl; [reflexivity |].
  f_equal. exact IH.
Qed.

Lemma names_set_present (df : DataFrame) (name : string) (column : list Cell) :
  df_get df name = Ok column -> names_set (df_columns df) name = df_columns df.
Proof.
  induction df as [| [n c] df IH]; simpl; [discriminate |].
  destruct (String.eqb n name); [reflexivity |].
  intros E. f_equal. exact (IH E).
Qed.

Lemma df_columns_fillna (df : DataFrame) :
  df_columns (fillna_median df) = df_columns df.
Proof.
  unfold df_columns, fillna_median. rewrite <- list_fmap_compose.
  apply list_fmap_ext. intros i [n c] _. simpl.
  destruct (is_numeric c); reflexivity.
Qed.

Lemma fst_imap (g : nat -> list Cell) (names : list string) :
  fst <$> imap (fun i n => (n, g i)) names = names.
Proof.
  revert g. induction names as [| n names IH]; intros g; simpl; [reflexivity |].
  f_equal. exact (IH (fun i => g (S i))).
Qed.

Lemma df_columns_frame (names : list string) (rows : list (list Q)) (df : DataFrame) :
  frame_of_rows names rows = Ok df -> df_columns df = names.
Proof.
  unfold frame_of_rows. destruct (forallb _ rows); [| discriminate].
  intros E. injection E as E. subst df. unfold df_columns.
  exact (fst_imap (fun i => (fun r => Num (nth i r 0)) <$> rows) names).
Qed.

Lemma fst_filter (names : list string) (df : DataFrame) :
  fst <$> filter (fun nc : string * list Cell =>
                    existsb (String.eqb nc.1) names = false) df
  = filter (fun n => existsb (String.eqb n) names = false) (fst <$> df).
Proof.
  induction df as [| [n c] df IH]; [reflexivity |].
  rewrite fmap_cons, !filter_cons. cbn [fst].
  destruct (decide (existsb (String.eqb n) names = false)) as [Hd | Hd].
  - rewrite fmap_cons, IH. reflexivity.
  - exact IH.
Qed.

Lemma df_columns_drop (df dropped : DataFrame) (names : list string) :
  df_drop df names = Ok dropped ->
  df_columns dropped = names_drop (df_columns df) names.
Proof.
  unfold df_drop. destruct (forallb (has_column df) names); [| discriminate].
  intros E. injection E as E. subst dropped.
  unfold df_columns, names_drop. apply fst_filter.
Qed.

Lemma encode_keeps_columns (csv df : DataFrame) (les : gmap string LabelEncoder) :
  Training.encode_categoricals csv = Ok (les, df) -> df_columns df = df_columns csv.
Proof.
  unfold Training.encode_categoricals. simpl. intros E.
  bind_inv E p Hp. destruct p as [les1 df1].
  bind_inv Hp c1 Hc1. bind_inv Hp r1 Hr1. destruct r1 as [le1 codes1].
  injection Hp as _ Hdf1. subst df1.
  bind_inv E c2 Hc2. bind_inv E r2 Hr2. destruct r2 as [le2 codes2].
  injection E as _ Hdf. subst df.
  rewrite df_columns_set, (names_set_present _ _ _ Hc2).
  rewrite df_columns_set, (names_set_present _ _ _ Hc1). reflexivity.
Qed.

Lemma length_mapM {A B} (f : A -> result B) (l : list A) (bs : list B) :
  mapM f l = Ok bs -> length bs = length l.
Proof.
  revert bs. induction l as [| a l IH]; simpl; intros bs E.
  - injection E as E. subst bs. reflexivity.
  - bind_inv E b Hb. bind_inv E bs' Hbs. injection E as E. subst bs.
    simpl. f_equal. exact (IH bs' Hbs).
Qed.

Lemma Forall_mapM {A B} (f : A -> result B) (P : B -> Prop) (l : list A) (bs : list B) :
  (forall a b, f a = Ok b -> P b) -> mapM f l = Ok bs -> Forall P bs.
Proof.
  intros Hf. revert bs. induction l as [| a l IH]; simpl; intros bs E.
  - injection E as E. subst bs. apply Forall_nil. exact I.
  - bind_inv E b Hb. bind_inv E bs' Hbs. injection E as E. subst bs.
    apply Forall_cons. split; [exact (Hf a b Hb) | exact (IH bs' Hbs)].
Qed.

Lemma to_matrix_width (df : DataFrame) (rows : list (list Q)) :
  to_matrix df = Ok rows ->
  Forall (fun row => length row = length (df_columns df)) rows.
Proof.
  unfold to_matrix. apply Forall_mapM. intros i row E.
  rewrite (length_mapM _ _ _ E). unfold df_row, df_columns.
  rewrite !length_fmap. reflexivity.
Qed.

(** The layout of the training matrix is a function of the header of the
    CSV file alone, and every row of the matrix has that many entries. *)
Lemma notebook_layout (csv : DataFrame) (fs : Files) (run : Training.Run) :
  Training.notebook csv fs = Ok run ->
  Training.X_columns (Training.split run) = training_layout (df_columns csv) /\
  Forall (fun row => length row = length (training_layout (df_columns csv)))
         (Training.X (Training.split run)).
Proof.
  intros E.
  destruct (notebook_steps csv fs run E)
    as (df & cleaned & feats & Hl & Hc & Ht & Hs & _).
  unfold Training.load_and_preprocess in Hl. bind_inv Hl p Hp.
  destruct p as [les encoded]. injection Hl as _ Hdf. subst df.
  assert (H1 : df_columns (fillna_median encoded) = df_columns csv)
    by (rewrite df_columns_fillna; exact (encode_keeps_columns _ _ _ Hp)).
  unfold Training.text_preprocess in Hc.
  bind_inv Hc d1 Hd1. bind_inv Hc d2 Hd2. injection Hc as Hc. subst cleaned.
  unfold Training.text_features in Ht.
  bind_inv Ht c1 Hc1. bind_inv Ht wv Hwv. bind_inv Ht w Hw. bind_inv Ht w2v_df Hwdf.
  bind_inv Ht c2 Hc2. bind_inv Ht q Hq. destruct q as [vec tfidf_matrix].
  bind_inv Ht tfidf_df Htdf. bind_inv Ht dropped Hdrop.
  injection Ht as Ht. subst feats. simpl in Hs.
  unfold Training.balance_scale_split in Hs.
  bind_inv Hs X HX. bind_inv Hs y Hy. bind_inv Hs Xm HXm. bind_inv Hs ym Hym.
  bind_inv Hs r Hr. destruct r as [X_smote y_smote].
  bind_inv Hs t Ht. destruct t as [train_rows test_rows].
  injection Hs as Hs. rewrite <- Hs. simpl.
  assert (Hcols : df_columns X = training_layout (df_columns csv)).
  { rewrite (df_columns_drop _ _ _ HX), (df_columns_drop _ _ _ Hdrop).
    unfold pd_concat. simpl. rewrite app_nil_r.
    unfold df_columns at 1. rewrite !fmap_app. fold (df_columns w2v_df).
    fold (df_columns tfidf_df).
    rewrite (df_columns_frame _ _ _ Hwdf), (df_columns_frame _ _ _ Htdf).
    change (fst <$> ?d) with (df_columns d).
    rewrite !df_columns_set, H1. reflexivity. }
  split; [exact Hcols |].
  rewrite <- Hcols. exact (to_matrix_width X Xm HXm).
Qed.

End LayoutFacts.

(* ===================================================================== *)
(** ** Training and serving side by side *)
(* ===================================================================== *)

(** C1 (the endpoint departs from it): in every run the columns of the
    training matrix are those of [training_layout] of the CSV header, in
    that order, and every training row has that many entries, while the
    endpoint started after the run builds sentiment, complaint_type,
    transaction_frequency, 100 zeros, 500 zeros.  For the header with only
    the columns the endpoint receives the training matrix starts with
    complaint_type, transaction_frequency, sentiment_score; for the header
    the notebook's comment lists it has 604 columns.  In the example runs the
    training vector of the first complaint and the served vector of the same
    complaint differ accordingly: 604 against 603 entries, and, at 603
    entries each, another field order and embedding averages against zeros. *)
Theorem training_and_serving_vectors_differ `{TextEnv} `{MLEnv} `{NumPyEnv}
    (csv : DataFrame) (fs : Files) (run : Training.Run)
    (g : Serving.Globals) (d : gmap string PyVal) (s : string) (ct tf : Q) :
  Training.notebook csv fs = Ok run ->
  Serving.load_globals (Training.files run) = Ok g ->
  text_request d s ct tf ->
  (Training.X_columns (Training.split run) = training_layout (df_columns csv) /\
   Forall (fun row => length row = length (training_layout (df_columns csv)))
          (Training.X (Training.split run)) /\
   Serving.feature_vector g (PyDict d)
   = Ok (FloatArray ([polarity s; ct; tf] ++ replicate 100 0 ++ replicate 500 0))) /\
  (training_layout ["complaint_description"; "complaint_type";
                    "transaction_frequency"; "escalated"]
   = ["complaint_type"; "transaction_frequency"; "sentiment_score"]
     ++ Training.numbered "w2v_" 100 ++ Training.numbered "tfidf_" 500 /\
   length (training_layout ["complaint_description"; "complaint_type";
                            "transaction_frequency"; "resolution_time_days";
                            "sentiment_score"; "escalated"]) = 604%nat) /\
  (result_map (option_map (@length Q)) (Fixture.training_vector Fixture.trained 0)
   = Ok (Some 604%nat) /\
   result_map (@length Q) (Fixture.served_vector Fixture.trained Fixture.request)
   = Ok 603%nat) /\
  (result_map (option_map (@length Q)) (Fixture.training_vector Fixture.trained_minimal 0)
   = Ok (Some 603%nat) /\
   result_map (@length Q)
              (Fixture.served_vector Fixture.trained_minimal Fixture.request)
   = Ok 603%nat /\
   result_map (take 4) (Fixture.training_columns Fixture.trained_minimal)
   = Ok ["complaint_type"; "transaction_frequency"; "sentiment_score"; "w2v_0"] /\
   result_map (option_map (take 4)) (Fixture.training_row Fixture.trained_minimal 0)
   = Ok (Some [0; 0; -(1 # 2); 7 # 2]) /\
   result_map (take 4) (Fixture.served_vector Fixture.trained_minimal Fixture.request)
   = Ok [-(1 # 2); 0; 0; 0]).
Proof.
  intros Hrun Hload Hreq.
  split; [| split; [| split]].
  - destruct (notebook_layout csv fs run Hrun) as [Hcols Hrows].
    destruct (loaded_globals _ g Hload) as (_ & Hs & Hw & Ht).
    split; [exact Hcols |]. split; [exact Hrows |].
    exact (feature_vector_raw g d s ct tf Hs Hw Ht Hreq).
  - split; vm_compute; reflexivity.
  - split; vm_compute; reflexivity.
  - repeat split; vm_compute; reflexivity.
Qed.

Lemma training_and_serving_vectors_differ_witness :
  Training.X_columns (Training.split Fixture.run)
  = training_layout (df_columns Fixture.csv) /\
  Forall (fun row => length row = length (training_layout (df_columns Fixture.csv)))
         (Training.X (Training.split Fixture.run)) /\
  @Serving.feature_vector Fixture.text_env Fixture.numpy_env Fixture.run_globals
     (PyDict Fixture.request_fields)
  = Ok (FloatArray
          ([@polarity Fixture.text_env "Late fee was charged twice!"; 0; 0]
           ++ replicate 100 0 ++ replicate 500 0)).
Proof.
  assert (Hreq : text_request Fixture.request_fields
                              "Late fee was charged twice!" 0 0)
    by (repeat split; vm_compute; reflexivity).
  exact (proj1 (@training_and_serving_vectors_differ
                  Fixture.text_env Fixture.ml_env Fixture.numpy_env
                  Fixture.csv ∅ Fixture.run Fixture.run_globals
                  Fixture.request_fields "Late fee was charged twice!" 0 0
                  fixture_run fixture_run_globals Hreq)).
Defined.

(** C2 (the endpoint departs from it): in every run the scaler is fitted
    once, on the balanced matrix, and every training row is standardized
    with it as (x - mean) / spread; but the run does not save it, and
    whatever the directory holds, start-up leaves the scaler unset: in a
    directory that holds a scaler with mean 1 and spread 2 for every column
    the request is served the unscaled vector, whose first entries that
    scaler would have taken to -3/4, -1/2, -1/2. *)
Theorem serving_skips_the_scaler `{TextEnv} `{MLEnv}
    (csv : DataFrame) (fs fs' : Files) (run : Training.Run) :
  Training.notebook csv fs = Ok run ->
  (exists y X_smote,
     smote_fit_resample (Training.X (Training.split run)) y
     = Ok (X_smote, Training.y_smote (Training.split run)) /\
     Training.scaler (Training.split run) = scaler_fit X_smote /\
     Training.X_scaled (Training.split run)
     = map (scaler_transform (Training.scaler (Training.split run))) X_smote) /\
  Training.files run !! "scaler.pkl" = fs !! "scaler.pkl" /\
  result_map Serving.scaler (Serving.load_globals fs')
  = result_map (fun _ => None) (Serving.load_globals fs') /\
  result_map Serving.scaler (Serving.load_globals Fixture.full_bundle) = Ok None /\
  (g ← Serving.load_globals Fixture.full_bundle;
   @Serving.feature_vector Fixture.text_env Fixture.numpy_env g Fixture.request)
  = Ok (FloatArray (@raw_vector Fixture.text_env "Late fee was charged twice!" 0 0)) /\
  take 3 (@raw_vector Fixture.text_env "Late fee was charged twice!" 0 0)
  = [-(1 # 2); 0; 0] /\
  result_map (fun a => take 3 (Fixture.float_entries a))
    (@Serving.scaler_apply Fixture.numpy_env (PkScaler Fixture.scaler_stats)
       (FloatArray (@raw_vector Fixture.text_env "Late fee was charged twice!" 0 0)))
  = Ok [-3 # 4; -1 # 2; -1 # 2].
Proof.
  intros Hrun.
  destruct (notebook_steps csv fs run Hrun)
    as (df & cleaned & feats & _ & _ & _ & Hs & _ & _ & _ & Hf).
  split; [exact (split_scaler _ _ Hs) |].
  split.
  { rewrite Hf. unfold joblib_dump. apply lookup_insert_ne. discriminate. }
  split.
  { rewrite load_globals_unfold.
    destruct (fs' !! "escalation_model.pkl"); reflexivity. }
  repeat split; vm_compute; reflexivity.
Qed.

Lemma serving_skips_the_scaler_witness :
  Training.files Fixture.run !! "scaler.pkl" = (∅ : Files) !! "scaler.pkl" /\
  result_map Serving.scaler (Serving.load_globals (Training.files Fixture.run))
  = result_map (fun _ => None) (Serving.load_globals (Training.files Fixture.run)).
Proof.
  pose proof (@serving_skips_the_scaler Fixture.text_env Fixture.ml_env
                Fixture.csv ∅ (Training.files Fixture.run) Fixture.run fixture_run)
    as (_ & Hfiles & Hunset & _).
  exact (conj Hfiles Hunset).
Defined.

(* ===================================================================== *)
(** * Further properties of the two programs and of the dashboard *)
(* ===================================================================== *)

(* ===================================================================== *)
(** ** Frames: reading a column back *)
(* ===================================================================== *)

Lemma df_get_set_eq (df : DataFrame) (name : string) (column : list Cell) :
  df_get (df_set df name column) name = Ok column.
Proof.
  induction df as [| [n c] df IH]; simpl.
  - rewrite String.eqb_refl. reflexivity.
  - destruct (String.eqb n name) eqn:E; simpl; rewrite E; [reflexivity | exact IH].
Qed.

Lemma df_get_set_ne (df : DataFrame) (name other : string) (column : list Cell) :
  name <> other -> df_get (df_set df name column) other = df_get df other.
Proof.
  intros Hne. induction df as [| [n c] df IH]; simpl.
  - apply String.eqb_neq in Hne. rewrite Hne. reflexivity.
  - destruct (String.eqb n name) eqn:E; simpl.
    + apply String.eqb_eq in E. subst n.
      apply String.eqb_neq in Hne. rewrite Hne. reflexivity.
    + destruct (String.eqb n other); [reflexivity | exact IH].
Qed.

Lemma df_get_has_column (df : DataFrame) (name : string) (column : list Cell) :
  df_get df name = Ok column -> has_column df name = true.
Proof.
  unfold has_column, df_columns.
  induction df as [| [n c] df IH]; simpl; [discriminate |].
  rewrite (String.eqb_sym name n).
  destruct (String.eqb n name); [reflexivity | exact IH].
Qed.

Lemma has_column_df_get (df : DataFrame) (name : string) :
  has_column df name = false -> df_get df name = Raise KeyError.
Proof.
  unfold has_column, df_columns.
  induction df as [| [n c] df IH]; simpl; [reflexivity |].
  rewrite (String.eqb_sym name n).
  destruct (String.eqb n name); [discriminate | exact IH].
Qed.

Lemma mapM_lookup {A B} (f : A -> result B) (l : list A) (bs : list B) (i : nat) (a : A) :
  mapM f l = Ok bs -> l !! i = Some a -> exists b, bs !! i = Some b /\ f a = Ok b.
Proof.
  revert bs i. induction l as [| x l IH]; intros bs i E Hi; [discriminate Hi |].
  simpl in E. bind_inv E b Hb. bind_inv E bs' Hbs. injection E as E. subst bs.
  destruct i as [| i]; simpl in *.
  - injection Hi as Hi. subst x. exists b. split; [reflexivity | exact Hb].
  - exact (IH bs' i Hbs Hi).
Qed.

(* ===================================================================== *)
(** ** The label-encoding loop *)
(* ===================================================================== *)

Lemma index_of_lookup (x : Cell) (classes : list Cell) (k : nat) :
  index_of x classes = Some k ->
  exists c, classes !! k = Some c /\ cell_eqb x c = true.
Proof.
  revert k. induction classes as [| c cs IH]; intros k E; [discriminate E |].
  simpl in E. destruct (cell_eqb x c) eqn:Hx.
  - injection E as E. subst k. exists c. split; [reflexivity | exact Hx].
  - destruct (index_of x cs) as [j |]; [| discriminate E].
    simpl in E. injection E as E. subst k. exact (IH j eq_refl).
Qed.

(** Decoding a code with the classes of the encoder gives the value back. *)
Lemma fit_transform_decodes (column : list Cell) (le : LabelEncoder) (codes : list Cell) :
  le_fit_transform column = Ok (le, codes) ->
  length codes = length column /\
  (NaN ∉ codes) /\
  forall i x, column !! i = Some x ->
    exists k c, codes !! i = Some (code_cell k) /\
                classes_ le !! k = Some c /\ cell_eqb x c = true.
Proof.
  unfold le_fit_transform. intros E.
  bind_inv E classes Hc. bind_inv E cs Hcs. injection E as Hle Hcodes.
  subst le codes. simpl.
  split; [rewrite length_map; exact (length_mapM _ _ _ Hcs) |]. split.
  - intros Hin. apply list_elem_of_In, in_map_iff in Hin.
    destruct Hin as (k & Hk & _). discriminate Hk.
  - intros i x Hi.
    destruct (mapM_lookup _ _ _ i x Hcs Hi) as (k & Hk & Hx).
    unfold le_transform in Hx. simpl in Hx.
    destruct (index_of x classes) as [j |] eqn:Hj; [| discriminate Hx].
    injection Hx as Hx. subst j.
    destruct (index_of_lookup x classes k Hj) as (c & Hlk & Heq).
    exists k, c. split; [| split; assumption].
    change (map code_cell cs) with (code_cell <$> cs).
    rewrite list_lookup_fmap, Hk. reflexivity.
Qed.

(** X1: when the loop over the two categorical columns succeeds, the frame
    keeps its column names and every other column; exactly the two encoders
    are saved; and in each of the two columns every row holds a code that is
    never missing and that the saved encoder's classes decode to the
    category the row had. *)
Theorem encoding_round_trip (csv df : DataFrame) (les : gmap string LabelEncoder) :
  Training.encode_categoricals csv = Ok (les, df) ->
  df_columns df = df_columns csv /\
  dom les = {["complaint_type"; "transaction_frequency"]} /\
  (forall name, name <> "complaint_type" -> name <> "transaction_frequency" ->
                df_get df name = df_get csv name) /\
  (forall name, name = "complaint_type" \/ name = "transaction_frequency" ->
     exists le original codes,
       les !! name = Some le /\
       df_get csv name = Ok original /\
       df_get df name = Ok codes /\
       length codes = length original /\
       (NaN ∉ codes) /\
       forall i x, original !! i = Some x ->
         exists k c, codes !! i = Some (code_cell k) /\
                     classes_ le !! k = Some c /\ cell_eqb x c = true).
Proof.
  intros E. split; [exact (encode_keeps_columns csv df les E) |].
  unfold Training.encode_categoricals in E. simpl in E.
  bind_inv E p Hp. destruct p as [les1 df1].
  bind_inv Hp c1 Hc1. bind_inv Hp r1 Hr1. destruct r1 as [le1 codes1].
  injection Hp as Hles1 Hdf1. subst les1 df1.
  bind_inv E c2 Hc2. bind_inv E r2 Hr2. destruct r2 as [le2 codes2].
  injection E as Hles Hdf. subst les df.
  assert (Hc2' : df_get csv "transaction_frequency" = Ok c2)
    by (rewrite <- Hc2; symmetry; apply df_get_set_ne; discriminate).
  split; [| split].
  - rewrite !dom_insert_L, dom_empty_L. set_solver.
  - intros name H1 H2. rewrite !df_get_set_ne by congruence. reflexivity.
  - intros name [Hn | Hn]; subst name.
    + destruct (fit_transform_decodes c1 le1 codes1 Hr1) as (Hlen & Hnan & Hdec).
      exists le1, c1, codes1.
      split; [rewrite lookup_insert_ne by discriminate; apply lookup_insert_eq |].
      split; [exact Hc1 |].
      split; [rewrite df_get_set_ne by discriminate; apply df_get_set_eq |].
      split; [exact Hlen |]. split; [exact Hnan | exact Hdec].
    + destruct (fit_transform_decodes c2 le2 codes2 Hr2) as (Hlen & Hnan & Hdec).
      exists le2, c2, codes2.
      split; [apply lookup_insert_eq |].
      split; [exact Hc2' |].
      split; [apply df_get_set_eq |].
      split; [exact Hlen |]. split; [exact Hnan | exact Hdec].
Qed.

(* ===================================================================== *)
(** ** The columns a run needs and the columns of its training matrix *)
(* ===================================================================== *)

Lemma elem_of_names_set (x name : string) (columns : list string) :
  x ∈ names_set columns name <-> x ∈ columns \/ x = name.
Proof.
  induction columns as [| n columns IH]; simpl.
  - rewrite list_elem_of_singleton. split; [auto |].
    intros [Hx | Hx]; [apply elem_of_nil in Hx; contradiction | exact Hx].
  - destruct (String.eqb n name) eqn:E.
    + apply String.eqb_eq in E. subst n. split; [auto |].
      intros [Hx | Hx]; [exact Hx |]. subst x. apply elem_of_cons. left. reflexivity.
    + rewrite !elem_of_cons, IH. tauto.
Qed.

Lemma elem_of_names_drop (x : string) (columns names : list string) :
  x ∈ names_drop columns names <-> x ∈ columns /\ existsb (String.eqb x) names = false.
Proof.
  unfold names_drop. rewrite list_elem_of_filter. tauto.
Qed.

Lemma has_column_elem_of (df : DataFrame) (name : string) :
  has_column df name = true <-> name ∈ df_columns df.
Proof.
  unfold has_column. rewrite existsb_exists. split.
  - intros (n & Hin & Hn). apply String.eqb_eq in Hn. subst n.
    apply list_elem_of_In. exact Hin.
  - intros Hin. exists name. split; [apply list_elem_of_In; exact Hin |].
    apply String.eqb_refl.
Qed.

Section ColumnFacts.
Context `{TextEnv} `{MLEnv}.

(** The names of the frame handed to the balancing step. *)
Lemma features_columns (df cleaned : DataFrame) (feats : Training.TextFeatures) :
  Training.text_preprocess df = Ok cleaned ->
  Training.text_features cleaned = Ok feats ->
  df_columns (Training.tf_df feats)
  = names_drop
      (names_set (names_set (names_set (df_columns df) "cleaned_text")
                            "sentiment_score") "w2v_features"
       ++ Training.numbered "w2v_" 100 ++ Training.numbered "tfidf_" 500)
      ["complaint_description"; "cleaned_text"; "w2v_features"].
Proof.
  intros Hc Ht.
  unfold Training.text_preprocess in Hc.
  bind_inv Hc d1 Hd1. bind_inv Hc d2 Hd2. injection Hc as Hc. subst cleaned.
  unfold Training.text_features in Ht.
  bind_inv Ht c1 Hc1. bind_inv Ht wv Hwv. bind_inv Ht w Hw. bind_inv Ht w2v_df Hwdf.
  bind_inv Ht c2 Hc2. bind_inv Ht q Hq. destruct q as [vec tfidf_matrix].
  bind_inv Ht tfidf_df Htdf. bind_inv Ht dropped Hdrop.
  injection Ht as Ht. subst feats. simpl.
  rewrite (df_columns_drop _ _ _ Hdrop).
  unfold pd_concat. simpl. rewrite app_nil_r.
  unfold df_columns at 1. rewrite !fmap_app. fold (df_columns w2v_df).
  fold (df_columns tfidf_df).
  rewrite (df_columns_frame _ _ _ Hwdf), (df_columns_frame _ _ _ Htdf).
  change (fst <$> ?d) with (df_columns d).
  rewrite !df_columns_set. reflexivity.
Qed.

End ColumnFacts.

(** The text columns and the label are dropped from the layout, the
    sentiment score is in it, and it ends with the 600 text features. *)
Lemma training_layout_structure (header : list string) :
  ("escalated" ∉ training_layout header) /\
  ("complaint_description" ∉ training_layout header) /\
  ("cleaned_text" ∉ training_layout header) /\
  ("w2v_features" ∉ training_layout header) /\
  ("sentiment_score" ∈ training_layout header) /\
  exists kept,
    training_layout header
    = kept ++ Training.numbered "w2v_" 100 ++ Training.numbered "tfidf_" 500 /\
    (forall x, x ∈ kept ->
       x ∈ header \/ x = "sentiment_score") /\
    length (training_layout header) = (length kept + 600)%nat.
Proof.
  unfold training_layout.
  set (S3 := names_set (names_set (names_set header "cleaned_text")
                                  "sentiment_score") "w2v_features").
  repeat split.
  - intros Hin. apply elem_of_names_drop in Hin. destruct Hin as [_ Hin].
    discriminate Hin.
  - intros Hin. apply elem_of_names_drop in Hin. destruct Hin as [Hin _].
    apply elem_of_names_drop in Hin. destruct Hin as [_ Hin]. discriminate Hin.
  - intros Hin. apply elem_of_names_drop in Hin. destruct Hin as [Hin _].
    apply elem_of_names_drop in Hin. destruct Hin as [_ Hin]. discriminate Hin.
  - intros Hin. apply elem_of_names_drop in Hin. destruct Hin as [Hin _].
    apply elem_of_names_drop in Hin. destruct Hin as [_ Hin]. discriminate Hin.
  - apply elem_of_names_drop. split; [| reflexivity].
    apply elem_of_names_drop. split; [| reflexivity].
    apply elem_of_app. left. unfold S3.
    apply elem_of_names_set. left. apply elem_of_names_set. right. reflexivity.
  - exists (names_drop
              (names_drop S3 ["complaint_description"; "cleaned_text"; "w2v_features"])
              ["escalated"]).
    assert (Hsplit :
      names_drop
        (names_drop
           (S3 ++ Training.numbered "w2v_" 100 ++ Training.numbered "tfidf_" 500)
           ["complaint_description"; "cleaned_text"; "w2v_features"])
        ["escalated"]
      = names_drop
          (names_drop S3 ["complaint_description"; "cleaned_text"; "w2v_features"])
          ["escalated"]
        ++ Training.numbered "w2v_" 100 ++ Training.numbered "tfidf_" 500).
    { unfold names_drop. rewrite !filter_app. f_equal. }
    split; [exact Hsplit |]. split.
    + intros x Hx. apply elem_of_names_drop in Hx. destruct Hx as [Hx Hesc].
      apply elem_of_names_drop in Hx. destruct Hx as [Hx Htext].
      unfold S3 in Hx. apply elem_of_names_set in Hx. destruct Hx as [Hx | Hx].
      * apply elem_of_names_set in Hx. destruct Hx as [Hx | Hx]; [| right; exact Hx].
        apply elem_of_names_set in Hx. destruct Hx as [Hx | Hx]; [left; exact Hx |].
        subst x. discriminate Htext.
      * subst x. discriminate Htext.
    + rewrite Hsplit, !length_app. f_equal.
Qed.

Lemma not_elem_by_existsb (x : string) (l : list string) :
  existsb (String.eqb x) l = false -> x ∉ l.
Proof.
  intros Hf Hin. apply list_elem_of_In in Hin.
  assert (Ht : existsb (String.eqb x) l = true).
  { apply existsb_exists. exists x. split; [exact Hin | apply String.eqb_refl]. }
  congruence.
Qed.

Lemma encode_reads (csv df : DataFrame) (les : gmap string LabelEncoder) :
  Training.encode_categoricals csv = Ok (les, df) ->
  has_column csv "complaint_type" = true /\
  has_column csv "transaction_frequency" = true.
Proof.
  unfold Training.encode_categoricals. simpl. intros E.
  bind_inv E p Hp. destruct p as [les1 df1].
  bind_inv Hp c1 Hc1. bind_inv Hp r1 Hr1. destruct r1 as [le1 codes1].
  injection Hp as _ Hdf1. subst df1.
  bind_inv E c2 Hc2.
  rewrite df_get_set_ne in Hc2 by discriminate.
  split; [exact (df_get_has_column _ _ _ Hc1) | exact (df_get_has_column _ _ _ Hc2)].
Qed.

(** X2: a table without the column complaint_type stops the notebook with
    KeyError at its first statement; and whenever a run succeeds, the table
    had the columns complaint_type, transaction_frequency,
    complaint_description and escalated. *)
Theorem notebook_needs_its_columns `{TextEnv} `{MLEnv} (csv : DataFrame) (fs : Files) :
  (has_column csv "complaint_type" = false ->
   Training.notebook csv fs = Raise KeyError) /\
  (forall run, Training.notebook csv fs = Ok run ->
     has_column csv "complaint_type" = true /\
     has_column csv "transaction_frequency" = true /\
     has_column csv "complaint_description" = true /\
     has_column csv "escalated" = true).
Proof.
  split.
  - intros Hmiss.
    assert (Henc : Training.encode_categoricals csv = Raise KeyError).
    { unfold Training.encode_categoricals. simpl.
      rewrite (has_column_df_get csv _ Hmiss). reflexivity. }
    unfold Training.notebook, Training.load_and_preprocess.
    rewrite Henc. reflexivity.
  - intros run E.
    destruct (notebook_steps csv fs run E)
      as (df & cleaned & feats & Hl & Hc & Ht & Hs & _).
    unfold Training.load_and_preprocess in Hl. bind_inv Hl p Hp.
    destruct p as [les encoded]. injection Hl as _ Hdf. subst df.
    destruct (encode_reads csv encoded les Hp) as [Hct Htf].
    pose proof (encode_keeps_columns csv encoded les Hp) as Hcols.
    split; [exact Hct |]. split; [exact Htf |].
    assert (Hheader : df_columns (fillna_median encoded) = df_columns csv)
      by (rewrite df_columns_fillna; exact Hcols).
    split.
    + pose proof Hc as Hc'. unfold Training.text_preprocess in Hc'.
      bind_inv Hc' d1 Hd1.
      apply df_get_has_column, has_column_elem_of in Hd1.
      rewrite Hheader in Hd1. apply has_column_elem_of. exact Hd1.
    + pose proof (features_columns _ _ _ Hc Ht) as Hfc.
      unfold Training.balance_scale_split in Hs. bind_inv Hs X HX.
      unfold df_drop in HX.
      destruct (forallb (has_column (Training.tf_df feats)) ["escalated"]) eqn:Hall;
        [| discriminate HX].
      simpl in Hall. rewrite andb_true_r in Hall.
      apply has_column_elem_of in Hall. rewrite Hfc, Hheader in Hall.
      apply elem_of_names_drop in Hall. destruct Hall as [Hin _].
      apply has_column_elem_of.
      apply elem_of_app in Hin. destruct Hin as [Hin | Hin].
      * apply elem_of_names_set in Hin. destruct Hin as [Hin | Hin]; [| discriminate Hin].
        apply elem_of_names_set in Hin. destruct Hin as [Hin | Hin]; [| discriminate Hin].
        apply elem_of_names_set in Hin. destruct Hin as [Hin | Hin]; [| discriminate Hin].
        exact Hin.
      * exfalso. apply elem_of_app in Hin. destruct Hin as [Hin | Hin];
          revert Hin; apply not_elem_by_existsb; vm_compute; reflexivity.
Qed.

Lemma notebook_needs_its_columns_witness :
  @Training.notebook Fixture.text_env Fixture.ml_env Examples.csv_without_type ∅
  = Raise KeyError /\
  (has_column Fixture.csv "complaint_type" = true /\
   has_column Fixture.csv "transaction_frequency" = true /\
   has_column Fixture.csv "complaint_description" = true /\
   has_column Fixture.csv "escalated" = true).
Proof.
  split.
  - apply (proj1 (@notebook_needs_its_columns Fixture.text_env Fixture.ml_env
                    Examples.csv_without_type ∅)).
    vm_compute. reflexivity.
  - exact (proj2 (@notebook_needs_its_columns Fixture.text_env Fixture.ml_env
                    Fixture.csv ∅) Fixture.run fixture_run).
Defined.

(** X3: in every run the training matrix has no column of the label and
    none of the three text columns, it has the sentiment score, its other
    columns come from the table, and its last 600 columns are w2v_0 to
    w2v_99 followed by tfidf_0 to tfidf_499. *)
Theorem features_exclude_label_and_text `{TextEnv} `{MLEnv}
    (csv : DataFrame) (fs : Files) (run : Training.Run) :
  Training.notebook csv fs = Ok run ->
  ("escalated" ∉ Training.X_columns (Training.split run)) /\
  ("complaint_description" ∉ Training.X_columns (Training.split run)) /\
  ("cleaned_text" ∉ Training.X_columns (Training.split run)) /\
  ("w2v_features" ∉ Training.X_columns (Training.split run)) /\
  ("sentiment_score" ∈ Training.X_columns (Training.split run)) /\
  exists kept,
    Training.X_columns (Training.split run)
    = kept ++ Training.numbered "w2v_" 100 ++ Training.numbered "tfidf_" 500 /\
    (forall x, x ∈ kept -> x ∈ df_columns csv \/ x = "sentiment_score") /\
    length (Training.X_columns (Training.split run)) = (length kept + 600)%nat.
Proof.
  intros E. destruct (notebook_layout csv fs run E) as [Hcols _].
  rewrite Hcols. apply training_layout_structure.
Qed.

Lemma features_exclude_label_and_text_witness :
  ("escalated" ∉ Training.X_columns (Training.split Fixture.run)) /\
  ("sentiment_score" ∈ Training.X_columns (Training.split Fixture.run)).
Proof.
  pose proof (@features_exclude_label_and_text Fixture.text_env Fixture.ml_env
                Fixture.csv ∅ Fixture.run fixture_run) as (Hl & _ & _ & _ & Hs & _).
  exact (conj Hl Hs).
Defined.

Lemma encoding_round_trip_witness :
  df_columns Examples.encoded.2 = df_columns Fixture.csv /\
  dom Examples.encoded.1 = {["complaint_type"; "transaction_frequency"]}.
Proof.
  assert (E : Training.encode_categoricals Fixture.csv
              = Ok (Examples.encoded.1, Examples.encoded.2))
    by (vm_compute; reflexivity).
  pose proof (encoding_round_trip Fixture.csv Examples.encoded.2 Examples.encoded.1 E)
    as (Hcols & Hdom & _).
  exact (conj Hcols Hdom).
Defined.

(* ===================================================================== *)
(** ** Filling the missing values *)
(* ===================================================================== *)

Lemma fill_column_id (v : Cell) (c : list Cell) :
  v = NaN \/ NaN ∉ c -> fill_column v c = c.
Proof.
  intros Hv. unfold fill_column.
  induction c as [| x c IH]; [reflexivity |].
  rewrite fmap_cons. f_equal.
  - destruct x; try reflexivity. destruct Hv as [Hv | Hv]; [exact Hv |].
    exfalso. apply Hv. apply elem_of_cons. left. reflexivity.
  - apply IH. destruct Hv as [Hv | Hv]; [left; exact Hv |].
    right. intros Hin. apply Hv. apply elem_of_cons. right. exact Hin.
Qed.

Lemma median_cases (c : list Cell) : median c = NaN \/ exists m, median c = Num m.
Proof.
  unfold median. destruct (length (sort_Q (numbers c))) as [| n]; [left; reflexivity |].
  right. destruct (Nat.even (S n)); eexists; reflexivity.
Qed.

Lemma is_numeric_fill (v : Cell) (c : list Cell) :
  is_numeric c = true -> (v = NaN \/ exists m, v = Num m) ->
  is_numeric (fill_column v c) = true.
Proof.
  intros Hc Hv. unfold is_numeric, fill_column in *.
  rewrite forallb_forall in *. intros x Hx.
  apply in_map_iff in Hx. destruct Hx as (y & Hy & Hin). subst x.
  specialize (Hc y Hin).
  destruct y; try exact Hc. destruct Hv as [Hv | [m Hv]]; subst v; reflexivity.
Qed.

Lemma fill_twice (c : list Cell) :
  is_numeric c = true ->
  fill_column (median (fill_column (median c) c)) (fill_column (median c) c)
  = fill_column (median c) c.
Proof.
  intros Hc. destruct (median_cases c) as [Hm | [m Hm]].
  - rewrite Hm. rewrite (fill_column_id NaN c) by (left; reflexivity).
    rewrite Hm. apply fill_column_id. left. reflexivity.
  - rewrite Hm. apply fill_column_id. right.
    exact (proj1 (proj2 (fill_column_spec m c))).
Qed.

(** X4: filling the missing values keeps the names and the order of the
    columns and the length of every column, leaves every value that is
    present as it is, and changes nothing when it is done a second time. *)
Theorem fillna_keeps_present_values (df : DataFrame) :
  df_columns (fillna_median df) = df_columns df /\
  fillna_median (fillna_median df) = fillna_median df /\
  (forall name column,
     df_get df name = Ok column ->
     exists filled,
       df_get (fillna_median df) name = Ok filled /\
       length filled = length column /\
       forall i x, column !! i = Some x -> x <> NaN -> filled !! i = Some x).
Proof.
  split; [apply df_columns_fillna |]. split.
  - unfold fillna_median. rewrite <- list_fmap_compose.
    apply list_fmap_ext. intros i [n c] _. simpl.
    destruct (is_numeric c) eqn:Hc; simpl.
    + rewrite (is_numeric_fill _ c Hc (median_cases c)).
      rewrite (fill_twice c Hc). reflexivity.
    + rewrite Hc. reflexivity.
  - intros name column Hget. rewrite df_get_fillna, Hget. simpl.
    destruct (is_numeric column).
    + exists (fill_column (median column) column).
      split; [reflexivity |]. unfold fill_column.
      split; [apply length_fmap |].
      intros i x Hi Hx. rewrite list_lookup_fmap, Hi. simpl.
      destruct x; congruence.
    + exists column. split; [reflexivity |]. split; [reflexivity |].
      intros i x Hi _. exact Hi.
Qed.

Lemma fillna_keeps_present_values_witness :
  fillna_median (fillna_median Fixture.csv) = fillna_median Fixture.csv.
Proof. exact (proj1 (proj2 (fillna_keeps_present_values Fixture.csv))). Defined.

(* ===================================================================== *)
(** ** The text columns of the notebook *)
(* ===================================================================== *)

(** X5: without the column complaint_description the text cell raises
    KeyError; with it, the cell keeps that column, sets cleaned_text to the
    cleaned form and sentiment_score to the polarity of each description
    read as a string, whatever sentiment_score held before; a missing
    description is cleaned and scored as the text nan. *)
Theorem text_preprocess_columns `{TextEnv} (df : DataFrame) :
  (has_column df "complaint_description" = false ->
   Training.text_preprocess df = Raise KeyError) /\
  (forall description,
     df_get df "complaint_description" = Ok description ->
     exists df',
       Training.text_preprocess df = Ok df' /\
       df_get df' "complaint_description" = Ok description /\
       df_get df' "cleaned_text"
       = Ok (map (fun x => Str (Training.clean_text (PyStr x)))
                 (astype_str description)) /\
       df_get df' "sentiment_score"
       = Ok (map (fun x => Num (polarity x)) (astype_str description)) /\
       forall i, description !! i = Some NaN ->
         exists cleaned sentiment,
           df_get df' "cleaned_text" = Ok cleaned /\
           df_get df' "sentiment_score" = Ok sentiment /\
           cleaned !! i = Some (Str (Training.clean_text (PyStr "nan"))) /\
           sentiment !! i = Some (Num (polarity "nan"))).
Proof.
  split.
  - intros Hmiss. unfold Training.text_preprocess.
    rewrite (has_column_df_get df _ Hmiss). reflexivity.
  - intros description Hd. unfold Training.text_preprocess.
    rewrite Hd. cbv beta iota delta [mbind result_bind].
    rewrite df_get_set_ne by discriminate. rewrite Hd.
    eexists. split; [reflexivity |].
    split; [rewrite !df_get_set_ne by discriminate; exact Hd |].
    split; [rewrite df_get_set_ne by discriminate; apply df_get_set_eq |].
    split; [apply df_get_set_eq |].
    intros i Hi. eexists. eexists.
    split; [rewrite df_get_set_ne by discriminate; apply df_get_set_eq |].
    split; [apply df_get_set_eq |].
    unfold astype_str.
    change (map ?f ?l) with (f <$> l).
    rewrite !list_lookup_fmap, Hi. split; reflexivity.
Qed.

Lemma text_preprocess_columns_witness :
  exists df',
    @Training.text_preprocess Fixture.text_env Fixture.csv_missing_text = Ok df' /\
    df_get df' "complaint_description"
    = Ok [Str "Late fee was charged twice!"; NaN;
          Str "late fee again"; Str "The card fee is wrong"; Str "card blocked"].
Proof.
  destruct (proj2 (@text_preprocess_columns Fixture.text_env Fixture.csv_missing_text)
                  [Str "Late fee was charged twice!"; NaN;
                   Str "late fee again"; Str "The card fee is wrong";
                   Str "card blocked"] eq_refl)
    as (df' & Hrun & Hdesc & _).
  exists df'. exact (conj Hrun Hdesc).
Defined.

Lemma frame_of_rows_raises (names : list string) (rows : list (list Q)) (e : PyExc) :
  frame_of_rows names rows = Raise e -> e = ValueError.
Proof.
  unfold frame_of_rows. destruct (forallb _ rows); intros E; [discriminate E |].
  injection E as E. symmetry. exact E.
Qed.

Lemma length_numbered (prefix : string) (n : nat) :
  length (Training.numbered prefix n) = n.
Proof. unfold Training.numbered. rewrite length_map, length_seq. reflexivity. Qed.

Lemma frame_of_rows_width (names : list string) (rows : list (list Q)) (row : list Q) :
  row ∈ rows -> length row <> length names ->
  frame_of_rows names rows = Raise ValueError.
Proof.
  intros Hin Hlen. unfold frame_of_rows.
  destruct (forallb _ rows) eqn:Hall; [| reflexivity].
  exfalso. rewrite forallb_forall in Hall.
  apply list_elem_of_In in Hin. specialize (Hall row Hin).
  apply Nat.eqb_eq in Hall. exact (Hlen Hall).
Qed.

(** X6: when the embedding table was fitted but the fitted vocabulary has
    not exactly 500 terms, so that a row of the TF-IDF matrix has not 500
    entries, the feature cell raises ValueError: the matrix does not fit the
    500 column names. *)
Theorem narrow_vocabulary_stops_the_notebook `{TextEnv} `{MLEnv}
    (df : DataFrame) (cleaned : list Cell) (wv : gmap string (list Q))
    (vectorizer : TfidfVectorizer) (tfidf_matrix : list (list Q)) (row : list Q) :
  df_get df "cleaned_text" = Ok cleaned ->
  word2vec_fit (map (fun text => str_split (Training.cell_text text)) cleaned) = Ok wv ->
  tfidf_fit_transform (map Training.cell_text cleaned) = Ok (vectorizer, tfidf_matrix) ->
  row ∈ tfidf_matrix ->
  length row <> 500%nat ->
  Training.text_features df = Raise ValueError.
Proof.
  intros Hc Hwv Hfit Hin Hlen. unfold Training.text_features.
  rewrite Hc. cbv beta iota delta [mbind result_bind]. rewrite Hwv.
  rewrite df_get_set_eq.
  destruct (frame_of_rows (Training.numbered "w2v_" 100) _) as [w2v_df | e] eqn:Hw.
  - rewrite df_get_set_ne by discriminate. rewrite Hc, Hfit.
    rewrite (frame_of_rows_width _ tfidf_matrix row Hin); [reflexivity |].
    rewrite length_numbered. exact Hlen.
  - rewrite (frame_of_rows_raises _ _ _ Hw). reflexivity.
Qed.

Lemma narrow_vocabulary_stops_the_notebook_witness :
  @Training.text_features Fixture.text_env Examples.narrow_ml_env Examples.cleaned_frame
  = Raise ValueError.
Proof.
  apply (@narrow_vocabulary_stops_the_notebook Fixture.text_env Examples.narrow_ml_env
           Examples.cleaned_frame Examples.cleaned_texts Examples.cleaned_table
           Examples.narrow_vectorizer
           (map (tfidf_transform Examples.narrow_vectorizer)
                (map Training.cell_text Examples.cleaned_texts))
           [1; 0]).
  - vm_compute. reflexivity.
  - vm_compute. reflexivity.
  - reflexivity.
  - vm_compute. apply elem_of_cons. left. reflexivity.
  - simpl. lia.
Defined.

(* ===================================================================== *)
(** ** The predictions table, the explanation step and the saves *)
(* ===================================================================== *)

Lemma lookup_predictions_df (y_pred : list Z) (i : nat) (label : Z) :
  y_pred !! i = Some label -> predictions_df y_pred !! i = Some (i, label).
Proof.
  intros Hi. unfold predictions_df. apply lookup_zip_with_Some.
  exists i, label. split; [reflexivity |]. split; [| exact Hi].
  apply lookup_seq. split; [reflexivity |].
  apply lookup_lt_Some in Hi. exact Hi.
Qed.

Lemma length_predictions_df (y_pred : list Z) :
  length (predictions_df y_pred) = length y_pred.
Proof.
  unfold predictions_df. rewrite length_zip_with, length_seq. lia.
Qed.

(** X9: in every run the predictions table has one row for each row of the
    test part, in the order of the test part: row i carries the number i as
    its Complaint_ID and the label the fitted stack predicts for test row
    i. *)
Theorem predictions_follow_the_test_rows `{TextEnv} `{MLEnv}
    (csv : DataFrame) (fs : Files) (run : Training.Run) :
  Training.notebook csv fs = Ok run ->
  length (predictions_df (Training.y_pred (Training.evaluation run)))
  = length (Training.X_test (Training.split run)) /\
  forall i x,
    Training.X_test (Training.split run) !! i = Some x ->
    exists label,
      predictions_df (Training.y_pred (Training.evaluation run)) !! i = Some (i, label) /\
      Stacking.predict (Training.stack_model run) x = Ok label.
Proof.
  intros E.
  destruct (notebook_steps csv fs run E)
    as (df & cleaned & tf & _ & _ & _ & _ & _ & _ & He & _).
  destruct (evaluate_inv _ _ _ He) as [Hp _].
  split.
  - rewrite length_predictions_df. exact (length_mapM _ _ _ Hp).
  - intros i x Hi. destruct (mapM_lookup _ _ _ i x Hp Hi) as (label & Hl & Hx).
    exists label. split; [exact (lookup_predictions_df _ _ _ Hl) | exact Hx].
Qed.

Lemma predictions_follow_the_test_rows_witness :
  length (predictions_df (Training.y_pred (Training.evaluation Fixture.run)))
  = length (Training.X_test (Training.split Fixture.run)) /\
  forall i x,
    Training.X_test (Training.split Fixture.run) !! i = Some x ->
    exists label,
      predictions_df (Training.y_pred (Training.evaluation Fixture.run)) !! i
      = Some (i, label) /\
      Stacking.predict (Training.stack_model Fixture.run) x = Ok label.
Proof.
  exact (@predictions_follow_the_test_rows Fixture.text_env Fixture.ml_env
           Fixture.csv ∅ Fixture.run fixture_run).
Defined.



(* ===================================================================== *)
(** ** The answers of the endpoint *)
(* ===================================================================== *)

(** X11: whatever was loaded at start-up, a body that is not a JSON object,
    and a JSON object whose description is present but not a string, are
    both answered with the error response of an AttributeError; no
    prediction is made. *)
Theorem malformed_requests_get_an_error `{TextEnv} `{NumPyEnv}
    (g : Serving.Globals) (body : PyVal) :
  (forall d, body <> PyDict d) \/
  (exists d v, body = PyDict d /\ d !! "complaint_description" = Some v /\
               forall s, v <> PyStr s) ->
  Serving.predict g body = Serving.Error AttributeError.
Proof.
  intros [Hbody | (d & v & Hbody & Hv & Hstr)].
  - unfold Serving.predict, Serving.feature_vector.
    destruct body; try reflexivity. exfalso. exact (Hbody d eq_refl).
  - subst body. unfold Serving.predict.
    rewrite (description_not_str g d); [reflexivity | |].
    + intros s Hs. rewrite Hv in Hs. injection Hs as Hs. exact (Hstr s Hs).
    + exists v. exact Hv.
Qed.

Lemma malformed_requests_get_an_error_witness :
  @Serving.predict Fixture.text_env Fixture.numpy_env Fixture.globals Examples.array_body
  = Serving.Error AttributeError /\
  @Serving.predict Fixture.text_env Fixture.numpy_env Fixture.globals
     (PyDict Fixture.null_description)
  = Serving.Error AttributeError.
Proof.
  split.
  - apply (@malformed_requests_get_an_error Fixture.text_env Fixture.numpy_env
             Fixture.globals Examples.array_body).
    left. intros d Hd. discriminate Hd.
  - apply (@malformed_requests_get_an_error Fixture.text_env Fixture.numpy_env
             Fixture.globals (PyDict Fixture.null_description)).
    right. exists Fixture.null_description, PyNone.
    split; [reflexivity |]. split; [reflexivity |].
    intros s Hs. discriminate Hs.
Defined.



(* ===================================================================== *)
(** ** The order of balancing, scaling and splitting *)
(* ===================================================================== *)

(** X13: in every run the split is made after the balancing and the
    scaling: the split is drawn over the rows of the balanced matrix, and
    every row of the test part is a row of the balanced matrix, at a row
    number of the test part, standardized with the scaler that was fitted on
    the whole balanced matrix, the test rows included. *)
Theorem test_rows_are_balanced_and_scaled `{TextEnv} `{MLEnv}
    (csv : DataFrame) (fs : Files) (run : Training.Run) :
  Training.notebook csv fs = Ok run ->
  exists y X_smote,
    smote_fit_resample (Training.X (Training.split run)) y
    = Ok (X_smote, Training.y_smote (Training.split run)) /\
    train_test_split (length X_smote) (Training.y_smote (Training.split run))
    = Ok (Training.train_rows (Training.split run),
          Training.test_rows (Training.split run)) /\
    forall x, x ∈ Training.X_test (Training.split run) ->
      exists r row,
        r ∈ Training.test_rows (Training.split run) /\
        X_smote !! r = Some row /\
        x = scaler_transform (scaler_fit X_smote) row.
Proof.
  intros E.
  destruct (notebook_steps csv fs run E)
    as (df & cleaned & tf & _ & _ & _ & Hs & _).
  destruct (split_rows _ _ Hs) as (_ & _ & HX & _ & Hsplit).
  destruct (split_scaler _ _ Hs) as (y & X_smote & Hsmote & Hfit & Hscaled).
  exists y, X_smote. split; [exact Hsmote |]. split.
  - rewrite <- Hsplit. rewrite Hscaled, length_map. reflexivity.
  - intros x Hx. rewrite HX in Hx. unfold take_rows in Hx.
    apply list_elem_of_omap in Hx. destruct Hx as (r & Hr & Hlook).
    rewrite Hscaled, list_lookup_fmap in Hlook.
    destruct (X_smote !! r) as [row |] eqn:Hrow; [| discriminate Hlook].
    simpl in Hlook. injection Hlook as Hlook.
    exists r, row. split; [exact Hr |]. split; [exact Hrow |].
    rewrite <- Hfit. symmetry. exact Hlook.
Qed.

Lemma test_rows_are_balanced_and_scaled_witness :
  exists y X_smote,
    @smote_fit_resample Fixture.ml_env (Training.X (Training.split Fixture.run)) y
    = Ok (X_smote, Training.y_smote (Training.split Fixture.run)) /\
    @train_test_split Fixture.ml_env (length X_smote)
      (Training.y_smote (Training.split Fixture.run))
    = Ok (Training.train_rows (Training.split Fixture.run),
          Training.test_rows (Training.split Fixture.run)) /\
    forall x, x ∈ Training.X_test (Training.split Fixture.run) ->
      exists r row,
        r ∈ Training.test_rows (Training.split Fixture.run) /\
        X_smote !! r = Some row /\
        x = scaler_transform (@scaler_fit Fixture.ml_env X_smote) row.
Proof.
  exact (@test_rows_are_balanced_and_scaled Fixture.text_env Fixture.ml_env
           Fixture.csv ∅ Fixture.run fixture_run).
Defined.

(* ===================================================================== *)
(** ** The dashboard in front of the endpoint *)
(* ===================================================================== *)

Section DashboardFacts.
Context `{TextEnv} `{NumPyEnv} `{UiEnv}.

(** What the dashboard sends is a request with a text and two numbers. *)
Lemma payload_is_text_request (text : string) (ct tf : nat) :
  text_request (Dashboard.payload text ct tf) text
               (inject_Z (Z.of_nat ct)) (inject_Z (Z.of_nat tf)).
Proof.
  unfold text_request, Dashboard.payload, dict_get. split; [| split].
  - rewrite lookup_insert_eq. reflexivity.
  - rewrite lookup_insert_ne by discriminate. rewrite lookup_insert_eq. reflexivity.
  - rewrite lookup_insert_ne by discriminate.
    rewrite lookup_insert_ne by discriminate.
    rewrite lookup_insert_eq. reflexivity.
Qed.

Lemma shown_for_response (g : Serving.Globals) (text : string) (ct tf : nat) :
  Dashboard.predict_escalation (endpoint g) text ct tf
  = match Serving.predict g (PyDict (Dashboard.payload text ct tf)) with
    | Serving.Escalated label =>
        Dashboard.Success
          (String.append "Predicted Escalation: " (py_format (PyNum (inject_Z label))))
    | Serving.Error e =>
        Dashboard.Failure (String.append "Prediction error: " (exc_str e))
    end.
Proof.
  unfold Dashboard.predict_escalation, endpoint.
  destruct (Serving.predict g (PyDict (Dashboard.payload text ct tf))) as [label | e];
    cbv beta iota zeta delta [mbind result_bind try_except jsonify py_in py_subscript
                              py_get str_add dict_get].
  - rewrite lookup_singleton_eq.
    rewrite bool_decide_eq_true_2 by (eexists; reflexivity). reflexivity.
  - rewrite lookup_singleton_ne by discriminate.
    rewrite bool_decide_eq_false_2 by (intros [v Hv]; discriminate Hv).
    rewrite lookup_singleton_eq. reflexivity.
Qed.

End DashboardFacts.

(** X14: with the endpoint started and reachable, the request the
    dashboard sends for a text and two numbers is served the vector of the
    text's polarity, the two numbers and 600 zeros, and the page shows the
    endpoint's answer: the success message with the predicted label when the
    endpoint predicted, the message Prediction error with the text of the
    exception when it caught one; the connection message and the Unknown
    error default are shown only when the post itself raises or the answer
    has neither key. *)
Theorem dashboard_shows_the_endpoint_answer `{TextEnv} `{NumPyEnv} `{UiEnv}
    (fs : Files) (g : Serving.Globals) (text : string) (ct tf : nat) :
  Serving.load_globals fs = Ok g ->
  Serving.feature_vector g (PyDict (Dashboard.payload text ct tf))
  = Ok (FloatArray ([polarity text; inject_Z (Z.of_nat ct); inject_Z (Z.of_nat tf)]
                    ++ replicate 100 0 ++ replicate 500 0)) /\
  Dashboard.predict_escalation (endpoint g) text ct tf
  = match Serving.predict g (PyDict (Dashboard.payload text ct tf)) with
    | Serving.Escalated label =>
        Dashboard.Success
          (String.append "Predicted Escalation: " (py_format (PyNum (inject_Z label))))
    | Serving.Error e =>
        Dashboard.Failure (String.append "Prediction error: " (exc_str e))
    end /\
  (forall post e,
     post (Dashboard.payload text ct tf) = Raise e ->
     Dashboard.predict_escalation post text ct tf
     = Dashboard.Failure (String.append "Error connecting to API: " (exc_str e))) /\
  (forall post d,
     post (Dashboard.payload text ct tf) = Ok (PyDict d) ->
     d !! "escalated" = None -> d !! "error" = None ->
     Dashboard.predict_escalation post text ct tf
     = Dashboard.Failure "Prediction error: Unknown error").
Proof.
  intros Hload.
  destruct (loaded_globals fs g Hload) as (_ & Hs & Hw & Ht).
  split; [| split; [| split]].
  - exact (feature_vector_raw g _ _ _ _ Hs Hw Ht (payload_is_text_request text ct tf)).
  - apply shown_for_response.
  - intros post e Hpost. unfold Dashboard.predict_escalation.
    rewrite Hpost. reflexivity.
  - intros post d Hpost Hesc Herr. unfold Dashboard.predict_escalation.
    rewrite Hpost.
    cbv beta iota zeta delta [mbind result_bind try_except py_in py_subscript
                              py_get str_add dict_get].
    rewrite Hesc.
    rewrite bool_decide_eq_false_2 by (intros [v Hv]; discriminate Hv).
    rewrite Herr. reflexivity.
Qed.

Lemma dashboard_shows_the_endpoint_answer_witness :
  @Dashboard.predict_escalation Examples.ui_env
    (@endpoint Fixture.text_env Fixture.numpy_env Examples.ui_env Fixture.globals)
    "Late fee was charged twice!" 0 0
  = match @Serving.predict Fixture.text_env Fixture.numpy_env Fixture.globals
            (PyDict (Dashboard.payload "Late fee was charged twice!" 0 0)) with
    | Serving.Escalated label =>
        Dashboard.Success
          (String.append "Predicted Escalation: "
             (@py_format Examples.ui_env (PyNum (inject_Z label))))
    | Serving.Error e =>
        Dashboard.Failure
          (String.append "Prediction error: " (@exc_str Examples.ui_env e))
    end.
Proof.
  assert (Hload : Serving.load_globals Fixture.model_only = Ok Fixture.globals)
    by (vm_compute; reflexivity).
  exact (proj1 (proj2 (@dashboard_shows_the_endpoint_answer
                         Fixture.text_env Fixture.numpy_env Examples.ui_env
                         Fixture.model_only Fixture.globals
                         "Late fee was charged twice!" 0 0 Hload))).
Defined.

(* ===================================================================== *)
(** ** The text features in the rows of the training matrix *)
(* ===================================================================== *)

Lemma mapM_app_inv {A B} (f : A -> result B) (l1 l2 : list A) (bs : list B) :
  mapM f (l1 ++ l2) = Ok bs ->
  exists b1 b2, mapM f l1 = Ok b1 /\ mapM f l2 = Ok b2 /\ bs = b1 ++ b2.
Proof.
  revert bs. induction l1 as [| a l1 IH]; intros bs E; simpl in E.
  - exists [], bs. split; [reflexivity |]. split; [exact E | reflexivity].
  - bind_inv E b Hb. bind_inv E rest Hrest. injection E as E. subst bs.
    destruct (IH rest Hrest) as (b1 & b2 & H1 & H2 & Hr).
    exists (b :: b1), b2. split; [| split; [exact H2 | rewrite Hr; reflexivity]].
    simpl. rewrite Hb. simpl. rewrite H1. reflexivity.
Qed.

Lemma mapM_cell_float (l : list Cell) (q : list Q) :
  mapM cell_float l = Ok q -> l = Num <$> q.
Proof.
  revert q. induction l as [| x l IH]; intros q E; simpl in E.
  - injection E as E. subst q. reflexivity.
  - bind_inv E b Hb. bind_inv E rest Hrest. injection E as E. subst q.
    destruct x; try discriminate Hb. injection Hb as Hb. subst b.
    rewrite fmap_cons, <- (IH rest Hrest). reflexivity.
Qed.

(** Row [i] of the frame made of a list of rows is row [i] of the list. *)
Lemma frame_row (names : list string) (rows : list (list Q)) (fr : DataFrame)
    (i : nat) (q : list Q) :
  frame_of_rows names rows = Ok fr -> names <> [] ->
  mapM cell_float (df_row fr i) = Ok q ->
  rows !! i = Some q /\ length q = length names.
Proof.
  unfold frame_of_rows. destruct (forallb _ rows) eqn:Hall; [| discriminate].
  intros E Hne Hq. injection E as E. subst fr.
  apply mapM_cell_float in Hq.
  assert (Hcell : forall j n, names !! j = Some n ->
            Num <$> (q !! j)
            = Some (nth i ((fun r => Num (nth j r 0)) <$> rows) NaN)).
  { intros j n Hj. rewrite <- list_lookup_fmap, <- Hq.
    unfold df_row. rewrite list_lookup_fmap, list_lookup_imap, Hj. reflexivity. }
  assert (Hlen : length q = length names).
  { apply (f_equal length) in Hq. unfold df_row in Hq.
    rewrite !length_fmap, length_imap in Hq. symmetry. exact Hq. }
  split; [| exact Hlen].
  destruct (rows !! i) as [r |] eqn:Hr.
  - f_equal.
    assert (Hrlen : length r = length names).
    { rewrite forallb_forall in Hall. apply Nat.eqb_eq. apply Hall.
      apply list_elem_of_In. exact (list_elem_of_lookup_2 _ _ _ Hr). }
    apply list_eq. intros j.
    destruct (names !! j) as [n |] eqn:Hj.
    + specialize (Hcell j n Hj).
      rewrite (nth_lookup_Some _ i NaN (Num (nth j r 0))) in Hcell
        by (rewrite list_lookup_fmap, Hr; reflexivity).
      destruct (q !! j) as [x |]; [| discriminate Hcell].
      simpl in Hcell. injection Hcell as Hcell. subst x.
      apply lookup_lt_Some in Hj.
      destruct (nth_lookup_or_length r j 0) as [Hn | Hn]; [exact Hn | lia].
    + apply lookup_ge_None in Hj. rewrite !lookup_ge_None_2 by lia. reflexivity.
  - exfalso. destruct names as [| n names]; [congruence |].
    specialize (Hcell 0%nat n eq_refl).
    rewrite nth_overflow in Hcell.
    + destruct (q !! 0%nat); discriminate Hcell.
    + rewrite length_fmap. apply lookup_ge_None. exact Hr.
Qed.

Lemma to_matrix_row (df : DataFrame) (M : list (list Q)) (i : nat) (row : list Q) :
  to_matrix df = Ok M -> M !! i = Some row ->
  mapM cell_float (df_row df i) = Ok row.
Proof.
  unfold to_matrix. intros E Hi.
  assert (Hlt : (i < nrows df)%nat).
  { apply lookup_lt_Some in Hi. rewrite (length_mapM _ _ _ E), length_seq in Hi.
    exact Hi. }
  destruct (mapM_lookup _ _ _ i i E) as (b & Hb & Hf).
  { apply lookup_seq. split; [reflexivity | exact Hlt]. }
  rewrite Hi in Hb. injection Hb as Hb. subst b. exact Hf.
Qed.

(** Dropping columns leaves a frame whose names are not dropped as it is. *)
Lemma filter_frame_id (names : list string) (fr : DataFrame) :
  forallb (fun n => negb (existsb (String.eqb n) names)) (df_columns fr) = true ->
  filter (fun nc : string * list Cell => existsb (String.eqb nc.1) names = false) fr
  = fr.
Proof.
  induction fr as [| [n c] fr IH]; intros Hall; [reflexivity |].
  simpl in Hall. apply andb_true_iff in Hall. destruct Hall as [Hn Hrest].
  apply negb_true_iff in Hn. rewrite filter_cons. cbn [fst].
  destruct (decide (existsb (String.eqb n) names = false)) as [Hd | Hd];
    [| contradiction].
  rewrite (IH Hrest). reflexivity.
Qed.

Lemma drop_keeps_frames (names : list string) (frame w t dropped : DataFrame) :
  df_drop (frame ++ w ++ t) names = Ok dropped ->
  forallb (fun n => negb (existsb (String.eqb n) names)) (df_columns w) = true ->
  forallb (fun n => negb (existsb (String.eqb n) names)) (df_columns t) = true ->
  exists kept, dropped = kept ++ w ++ t.
Proof.
  unfold df_drop. destruct (forallb _ names); [| discriminate].
  intros E Hw Ht. injection E as E. subst dropped.
  rewrite !filter_app, (filter_frame_id names w Hw), (filter_frame_id names t Ht).
  eexists. reflexivity.
Qed.

Section FeatureFacts.
Context `{TextEnv} `{MLEnv}.

Lemma text_features_inv (df : DataFrame) (tf : Training.TextFeatures) :
  Training.text_features df = Ok tf ->
  exists cleaned w2v_df tfidf_matrix tfidf_df frame,
    df_get df "cleaned_text" = Ok cleaned /\
    word2vec_fit (map (fun text => str_split (Training.cell_text text)) cleaned)
    = Ok (Training.tf_w2v_model tf) /\
    frame_of_rows (Training.numbered "w2v_" 100)
      (map (fun text => Training.get_w2v_vector (Training.tf_w2v_model tf)
                          (Training.cell_text text)) cleaned)
    = Ok w2v_df /\
    tfidf_fit_transform (map Training.cell_text cleaned)
    = Ok (Training.tf_tfidf tf, tfidf_matrix) /\
    frame_of_rows (Training.numbered "tfidf_" 500) tfidf_matrix = Ok tfidf_df /\
    df_drop (frame ++ w2v_df ++ tfidf_df)
            ["complaint_description"; "cleaned_text"; "w2v_features"]
    = Ok (Training.tf_df tf).
Proof.
  unfold Training.text_features. intros Ht.
  bind_inv Ht c1 Hc1. bind_inv Ht wv Hwv. bind_inv Ht w Hw. bind_inv Ht w2v_df Hwdf.
  bind_inv Ht c2 Hc2. bind_inv Ht q Hq. destruct q as [vec tfidf_matrix].
  bind_inv Ht tfidf_df Htdf. bind_inv Ht dropped Hdrop.
  injection Ht as Ht. subst tf. cbn [Training.tf_w2v_model Training.tf_tfidf Training.tf_df].
  rewrite df_get_set_eq in Hw. injection Hw as Hw. subst w.
  rewrite df_get_set_ne in Hc2 by discriminate.
  rewrite Hc1 in Hc2. injection Hc2 as Hc2. subst c2.
  rewrite map_map in Hwdf. cbn [Training.cell_vector] in Hwdf.
  unfold pd_concat in Hdrop. cbn [concat] in Hdrop. rewrite app_nil_r in Hdrop.
  eexists c1, w2v_df, tfidf_matrix, tfidf_df, _.
  split; [exact Hc1 |]. split; [exact Hwv |]. split; [exact Hwdf |].
  split; [exact Hq |]. split; [exact Htdf |]. exact Hdrop.
Qed.

Lemma split_matrix (df : DataFrame) (s : Training.Split) :
  Training.balance_scale_split df = Ok s ->
  exists Xdf, df_drop df ["escalated"] = Ok Xdf /\ to_matrix Xdf = Ok (Training.X s).
Proof.
  unfold Training.balance_scale_split. intros E.
  bind_inv E X HX. bind_inv E y Hy. bind_inv E Xm HXm. bind_inv E ym Hym.
  bind_inv E p Hp. destruct p as [X_smote y_smote].
  bind_inv E q Hq. destruct q as [train_rows test_rows].
  inversion E; subst; clear E. simpl.
  exists X. split; [exact HX | exact HXm].
Qed.

Lemma notebook_features (csv : DataFrame) (fs : Files) (run : Training.Run) :
  Training.notebook csv fs = Ok run ->
  exists les df cleaned tf,
    Training.load_and_preprocess csv = Ok (les, df) /\
    Training.text_preprocess df = Ok cleaned /\
    Training.text_features cleaned = Ok tf /\
    Training.balance_scale_split (Training.tf_df tf) = Ok (Training.split run) /\
    Training.w2v_model run = Training.tf_w2v_model tf /\
    Training.tfidf run = Training.tf_tfidf tf.
Proof.
  unfold Training.notebook. intros E.
  bind_inv E p Hp. destruct p as [les df].
  bind_inv E cleaned Hc. bind_inv E tf Ht. bind_inv E s Hs.
  bind_inv E q Hq. destruct q as [trials best].
  bind_inv E ev He. bind_inv E u Hu. inversion E; subst; clear E. simpl.
  exists les, df, cleaned, tf. repeat split; assumption.
Qed.

(** The loop over the two categorical columns leaves the other columns. *)
Lemma encode_other_columns (csv df : DataFrame) (les : gmap string LabelEncoder)
    (name : string) :
  Training.encode_categoricals csv = Ok (les, df) ->
  name <> "complaint_type" -> name <> "transaction_frequency" ->
  df_get df name = df_get csv name.
Proof.
  unfold Training.encode_categoricals. simpl. intros E H1 H2.
  bind_inv E p Hp. destruct p as [les1 df1].
  bind_inv Hp c1 Hc1. bind_inv Hp r1 Hr1. destruct r1 as [le1 codes1].
  injection Hp as _ Hdf1. subst df1.
  bind_inv E c2 Hc2. bind_inv E r2 Hr2. destruct r2 as [le2 codes2].
  injection E as _ Hdf. subst df.
  rewrite !df_get_set_ne by congruence. reflexivity.
Qed.

(** The column of cleaned texts, from the description column of the CSV
    file. *)
Lemma cleaned_column (csv df frame : DataFrame) (les : gmap string LabelEncoder) :
  Training.load_and_preprocess csv = Ok (les, df) ->
  Training.text_preprocess df = Ok frame ->
  exists description,
    df_get csv "complaint_description" = Ok description /\
    df_get frame "cleaned_text" = Ok (Str <$> cleaned_descriptions description).
Proof.
  unfold Training.load_and_preprocess. intros Hl Hp.
  bind_inv Hl p Henc. destruct p as [les' enc]. injection Hl as _ Hdf. subst df.
  unfold Training.text_preprocess in Hp.
  bind_inv Hp d1 Hd1. bind_inv Hp d2 Hd2. injection Hp as Hp. subst frame.
  rewrite df_get_fillna in Hd1.
  rewrite (encode_other_columns _ _ _ "complaint_description" Henc) in Hd1
    by discriminate.
  destruct (df_get csv "complaint_description") as [description | e] eqn:Hd;
    [| discriminate Hd1].
  simpl in Hd1. injection Hd1 as Hd1. subst d1.
  exists description. split; [reflexivity |].
  rewrite df_get_set_ne by discriminate. rewrite df_get_set_eq.
  unfold cleaned_descriptions. rewrite <- list_fmap_compose. reflexivity.
Qed.

Lemma text_columns_are_kept :
  forallb (fun n => negb (existsb (String.eqb n)
                            ["complaint_description"; "cleaned_text"; "w2v_features"]))
          (Training.numbered "w2v_" 100) = true /\
  forallb (fun n => negb (existsb (String.eqb n)
                            ["complaint_description"; "cleaned_text"; "w2v_features"]))
          (Training.numbered "tfidf_" 500) = true /\
  forallb (fun n => negb (existsb (String.eqb n) ["escalated"]))
          (Training.numbered "w2v_" 100) = true /\
  forallb (fun n => negb (existsb (String.eqb n) ["escalated"]))
          (Training.numbered "tfidf_" 500) = true.
Proof. repeat split; vm_compute; reflexivity. Qed.

End FeatureFacts.

(** X15: in every run each row of the training matrix ends with the text
    features of its own complaint: with the cleaned texts computed from the
    description column of the CSV file, row i ends with the 100 entries of
    the embedding average of cleaned text i, under the table fitted on all
    the cleaned texts, followed by the 500 entries of row i of the TF-IDF
    matrix fitted on them. *)
Theorem training_rows_end_with_their_text_features `{TextEnv} `{MLEnv}
    (csv : DataFrame) (fs : Files) (run : Training.Run) :
  Training.notebook csv fs = Ok run ->
  exists description tfidf_matrix,
    df_get csv "complaint_description" = Ok description /\
    word2vec_fit (map str_split (cleaned_descriptions description))
    = Ok (Training.w2v_model run) /\
    tfidf_fit_transform (cleaned_descriptions description)
    = Ok (Training.tfidf run, tfidf_matrix) /\
    forall i row,
      Training.X (Training.split run) !! i = Some row ->
      exists kept text lexical,
        cleaned_descriptions description !! i = Some text /\
        tfidf_matrix !! i = Some lexical /\
        length (Training.get_w2v_vector (Training.w2v_model run) text) = 100%nat /\
        length lexical = 500%nat /\
        row = kept ++ Training.get_w2v_vector (Training.w2v_model run) text ++ lexical.
Proof.
  intros E.
  destruct (notebook_features csv fs run E)
    as (les & df & frame0 & tf & Hl & Hp & Htf & Hs & Hw & Ht).
  destruct (cleaned_column _ _ _ _ Hl Hp) as (description & Hd & Hclean).
  destruct (text_features_inv _ _ Htf)
    as (cleaned & w2v_df & tfidf_matrix & tfidf_df & frame
        & Hc & Hmodel & Hwdf & Hfit & Htdf & Hdrop).
  rewrite Hclean in Hc. injection Hc as Hc. subst cleaned.
  rewrite <- list_fmap_compose in Hmodel, Hwdf.
  change (map ?f ?l) with (f <$> l) in Hfit.
  rewrite <- list_fmap_compose in Hfit.
  assert (Hid : (Training.cell_text ∘ Str <$> cleaned_descriptions description)
                = cleaned_descriptions description).
  { rewrite <- (list_fmap_id (cleaned_descriptions description)) at 2.
    apply list_fmap_ext. intros i x _. reflexivity. }
  rewrite Hid in Hfit.
  destruct (split_matrix _ _ Hs) as (Xdf & HX & HM).
  destruct text_columns_are_kept as (K1 & K2 & K3 & K4).
  destruct (drop_keeps_frames _ _ _ _ _ Hdrop) as [kept3 Hkept3].
  { rewrite (df_columns_frame _ _ _ Hwdf). exact K1. }
  { rewrite (df_columns_frame _ _ _ Htdf). exact K2. }
  rewrite Hkept3 in HX.
  destruct (drop_keeps_frames _ _ _ _ _ HX) as [kept Hkept].
  { rewrite (df_columns_frame _ _ _ Hwdf). exact K3. }
  { rewrite (df_columns_frame _ _ _ Htdf). exact K4. }
  exists description, tfidf_matrix.
  split; [exact Hd |].
  split; [rewrite Hw; exact Hmodel |].
  split; [rewrite Ht; exact Hfit |].
  intros i row Hi.
  pose proof (to_matrix_row _ _ _ _ HM Hi) as Hrow.
  rewrite Hkept in Hrow. unfold df_row in Hrow. rewrite !fmap_app in Hrow.
  apply mapM_app_inv in Hrow. destruct Hrow as (rk & rest & Hrk & Hrest & Hrow).
  apply mapM_app_inv in Hrest. destruct Hrest as (rw & rt & Hrw & Hrt & Hrest).
  destruct (frame_row _ _ _ i rw Hwdf) as [Hlw Hnw];
    [discriminate | exact Hrw |].
  destruct (frame_row _ _ _ i rt Htdf) as [Hlt Hnt];
    [discriminate | exact Hrt |].
  rewrite list_lookup_fmap in Hlw.
  destruct (cleaned_descriptions description !! i) as [text |] eqn:Htext;
    [| discriminate Hlw].
  simpl in Hlw. injection Hlw as Hlw.
  rewrite length_numbered in Hnw, Hnt.
  exists rk, text, rt. rewrite Hw, Hlw.
  split; [reflexivity |]. split; [exact Hlt |]. split; [exact Hnw |].
  split; [exact Hnt |]. rewrite Hrow, Hrest. reflexivity.
Qed.

Lemma training_rows_end_with_their_text_features_witness :
  exists description tfidf_matrix,
    df_get Fixture.csv "complaint_description" = Ok description /\
    @word2vec_fit Fixture.ml_env
      (map (@str_split Fixture.text_env)
           (@cleaned_descriptions Fixture.text_env description))
    = Ok (Training.w2v_model Fixture.run) /\
    @tfidf_fit_transform Fixture.ml_env
      (@cleaned_descriptions Fixture.text_env description)
    = Ok (Training.tfidf Fixture.run, tfidf_matrix) /\
    forall i row,
      Training.X (Training.split Fixture.run) !! i = Some row ->
      exists kept text lexical,
        @cleaned_descriptions Fixture.text_env description !! i = Some text /\
        tfidf_matrix !! i = Some lexical /\
        length (@Training.get_w2v_vector Fixture.text_env
                  (Training.w2v_model Fixture.run) text) = 100%nat /\
        length lexical = 500%nat /\
        row = kept
              ++ @Training.get_w2v_vector Fixture.text_env
                   (Training.w2v_model Fixture.run) text
              ++ lexical.
Proof.
  exact (@training_rows_end_with_their_text_features Fixture.text_env Fixture.ml_env
           Fixture.csv ∅ Fixture.run fixture_run).
Defined.
